(** * CollapseUpdater: the update-and-launch sequence of [main.py]

    A shallow embedding of [Updater] (resolution of the release to run,
    pruning of old releases, download, handoff) together with the
    properties of it that the specification states.

    The program talks to three things outside itself: the GitHub API and
    the asset server (through [requests]), the working directory (through
    [glob], [os] and [open]) and the console.  The embedding makes them
    explicit: the network is a value of type [Network] that says what each
    request answers, the working directory is a finite map from names to
    nodes, and every call that leaves the process is recorded, in order,
    in a trace of [Event]s. *)

From Stdlib Require Import ZArith String List Strings.Byte.
From stdpp Require Import base option list strings gmap fin_maps.

Local Open Scope string_scope.
Local Open Scope Z_scope.
Local Open Scope list_scope.

(** ** Data: what the GitHub API answers *)

(** One element of a release's ["assets"] array; the three keys the
    program reads. *)
Record Asset := {
  name : string;
  size : Z;
  browser_download_url : string
}.

(** A release object; [tag_name] is carried along, the program reads
    ["prerelease"] and ["assets"]. *)
Record Release := {
  tag_name : string;
  prerelease : bool;
  assets : list Asset
}.

(** What [response.json()] yields: the "latest" endpoint answers with one
    release object, the "all releases" endpoint with an array of them.
    The body of an error reply is never read by the program. *)
Inductive Json :=
| JObject (r : Release)
| JArray (rs : list Release).

(** A Python value as [get_latest_release] returns it: [False], or the
    JSON value it took from the response. *)
Inductive PyVal :=
| PyFalse
| PyJson (j : Json).

(** Truth value of [if self.latest_release:].  A release object always
    has keys, so it is true; an array is true when it is not empty. *)
Definition truthy (v : PyVal) : bool :=
  match v with
  | PyFalse => false
  | PyJson (JObject _) => true
  | PyJson (JArray rs) => negb (bool_decide (rs = []))
  end.

(** ** Exceptions *)

(** The subclasses of [requests.exceptions.RequestException] that matter:
    [HTTPError] is what [raise_for_status] raises, [ConnectionError] what
    a request that cannot be made raises, [ChunkedEncodingError] what
    [iter_content] raises when the stream breaks. *)
Inductive RequestException :=
| HTTPError (status : Z)
| ConnectionError (msg : string)
| ChunkedEncodingError (msg : string).

Inductive Exn :=
| ERequest (e : RequestException)
| IndexError
| TypeError
| FileNotFoundError (path : string)
| IsADirectoryError (path : string).

(** ** The network *)

(** A body that is streamed: the chunks [iter_content] yields, and how the
    iteration ends ([None]: the stream is complete; [Some e]: [e] is
    raised after the chunks). *)
Record Stream := {
  chunks : list (list byte);
  broken : option RequestException
}.

Record Response (A : Type) := {
  status_code : Z;
  body : A
}.
Arguments status_code {A} _.
Arguments body {A} _.

(** What [requests.get] does: raise, or return a response. *)
Inductive Reply (A : Type) :=
| Raises (e : RequestException)
| Returns (r : Response A).
Arguments Raises {A} e.
Arguments Returns {A} r.

Record Network := {
  api : string -> Reply Json;          (* requests.get(url) *)
  cdn : string -> Reply Stream         (* requests.get(url, stream=True) *)
}.

(** ** The working directory *)

Inductive Node :=
| File (content : list byte)
| Dir.

Abbreviation Store := (gmap string Node).

Definition isfile (fs : Store) (path : string) : bool :=
  match fs !! path with
  | Some (File _) => true
  | _ => false
  end.

Definition exists_ (fs : Store) (path : string) : bool :=
  bool_decide (is_Some (fs !! path)).

(** ** The trace *)

Inductive Event :=
| EvConsole (text : string)                 (* console.print(text) *)
| EvPrintExn (e : RequestException)         (* print(e) *)
| EvGet (url : string) (stream : bool)      (* requests.get *)
| EvGlob (pattern : string)                 (* glob.glob *)
| EvIsFile (path : string)                  (* os.path.isfile *)
| EvRemove (path : string)                  (* os.remove *)
| EvExists (path : string)                  (* os.path.exists *)
| EvOpen (path : string)                    (* open(path, "wb") *)
| EvWrite (path : string) (chunk : list byte)   (* file.write(chunk) *)
| EvTask (filename : string) (total : Z)    (* progress.add_task *)
| EvAdvance (n : nat)                       (* progress.update(advance=n) *)
| EvSystem (command : string).              (* os.system *)

(** ** The monad of the program: state, trace, exceptions *)

Record World := {
  store : Store;
  trace : list Event
}.

Inductive Outcome (A : Type) :=
| Done (a : A)
| Raised (e : Exn).
Arguments Done {A} a.
Arguments Raised {A} e.

Definition Py (A : Type) : Type := World -> Outcome A * World.

Definition raise {A} (e : Exn) : Py A := fun w => (Raised e, w).

#[export] Instance Py_ret : MRet Py := fun A a w => (Done a, w).

#[export] Instance Py_bind : MBind Py := fun A B k m w =>
  match m w with
  | (Done a, w') => k a w'
  | (Raised e, w') => (Raised e, w')
  end.

(** [try: m except requests.exceptions.RequestException as e: h e] *)
Definition try_except {A} (m : Py A) (h : RequestException -> Py A) : Py A :=
  fun w =>
    match m w with
    | (Raised (ERequest e), w') => h e w'
    | r => r
    end.

Definition emit (ev : Event) : Py unit :=
  fun w => (Done tt, {| store := store w; trace := trace w ++ [ev] |}).

Definition get_store : Py Store := fun w => (Done (store w), w).

Definition set_store (fs : Store) : Py unit :=
  fun w => (Done tt, {| store := fs; trace := trace w |}).

Definition outcome {A} (r : Outcome A * World) : Outcome A := fst r.
Definition store_of {A} (r : Outcome A * World) : Store := store (snd r).
Definition trace_of {A} (r : Outcome A * World) : list Event := trace (snd r).

(** ** Module level: constants and the command line *)

Definition github_repo : string := "dest4590/CollapseLoader".

(** The value of [args.prelease] after
    [parser.parse_known_args()], for the arguments [sys.argv[1:]].  The
    parser declares one option, [--prelease] ([store_true]).  argparse
    sets it when an argument before the first ["--"] is [--prelease] or an
    abbreviation of it ([--p], [--pre], ...); everything else ends in
    [unknown], which the program never reads.  Command lines on which
    argparse itself leaves the process ([-h], [--help], an option given a
    value) never reach [Updater] and are outside this model. *)
Definition is_prelease_option (arg : string) : bool :=
  String.prefix "--" arg && negb (String.eqb arg "--")
  && String.prefix arg "--prelease".

Fixpoint args_prelease (argv : list string) : bool :=
  match argv with
  | [] => false
  | arg :: rest =>
      if String.eqb arg "--" then false
      else is_prelease_option arg || args_prelease rest
  end.

(** [sub in s] on strings. *)
Fixpoint contains (sub s : string) : bool :=
  String.prefix sub s ||
  match s with
  | EmptyString => false
  | String _ s' => contains sub s'
  end.

(** The command lines on which [parser.parse_known_args()] returns.
    argparse leaves the process, after printing the help or an error, on
    an argument that resolves to [-h] or [--help] (also abbreviated, also
    with letters attached to [-h]) and on an option given a value with
    [=] ([--prelease=1], [--help=x], [--=x]).  [may_leave] holds of every
    such argument, and of some harmless ones ([--hello]); a command line
    none of whose arguments it holds of is parsed, and [args_prelease]
    is then the value of [args.prelease]. *)
Definition may_leave (arg : string) : bool :=
  String.prefix "-h" arg || String.prefix "--h" arg
  || String.prefix "--=" arg
  || (String.prefix "--p" arg && contains "=" arg).

Definition parse_known_args_returns (argv : list string) : bool :=
  forallb (λ arg, negb (may_leave arg)) argv.

(** ** Primitive operations *)

Definition console_print (text : string) : Py unit := emit (EvConsole text).

Definition print_exn (e : RequestException) : Py unit := emit (EvPrintExn e).

(** [requests.get(url)] against the API. *)
Definition requests_get (net : Network) (url : string) : Py (Response Json) :=
  emit (EvGet url false);;
  match api net url with
  | Raises e => raise (ERequest e)
  | Returns r => mret r
  end.

(** [requests.get(url, stream=True)] against the asset server. *)
Definition requests_get_stream (net : Network) (url : string)
  : Py (Response Stream) :=
  emit (EvGet url true);;
  match cdn net url with
  | Raises e => raise (ERequest e)
  | Returns r => mret r
  end.

(** [response.raise_for_status()], as the requests library defines it:
    [HTTPError] for a status from 400 to 599, nothing otherwise. *)
Definition raise_for_status {A} (response : Response A) : Py unit :=
  if bool_decide (400 ≤ status_code response < 600)
  then raise (ERequest (HTTPError (status_code response)))
  else mret tt.

(** [glob.glob(prefix + "*")]: the names in the working directory that
    start with [prefix], in the order the directory yields them (not
    specified; here that of [map_to_list]).  Matching is that of a
    case-sensitive file system. *)
Definition matching (prefix : string) (fs : Store) : list string :=
  List.filter (String.prefix prefix) (map fst (map_to_list fs)).

Definition glob_glob (prefix : string) : Py (list string) :=
  emit (EvGlob (prefix ++ "*"));;
  fs ← get_store;
  mret (matching prefix fs).

Definition os_path_isfile (path : string) : Py bool :=
  emit (EvIsFile path);;
  fs ← get_store;
  mret (isfile fs path).

Definition os_path_exists (path : string) : Py bool :=
  emit (EvExists path);;
  fs ← get_store;
  mret (exists_ fs path).

Definition os_remove (path : string) : Py unit :=
  emit (EvRemove path);;
  fs ← get_store;
  match fs !! path with
  | Some (File _) => set_store (delete path fs)
  | Some Dir => raise (IsADirectoryError path)
  | None => raise (FileNotFoundError path)
  end.

(** [open(path, "wb")]: creates the file, or truncates it. *)
Definition open_wb (path : string) : Py unit :=
  emit (EvOpen path);;
  fs ← get_store;
  match fs !! path with
  | Some Dir => raise (IsADirectoryError path)
  | _ => set_store (<[path := File []]> fs)
  end.

(** [file.write(chunk)] on the file opened under [path].  The [with]
    block closes the file on every way out, so what was written is in
    the file whether or not the loop completes. *)
Definition file_write (path : string) (chunk : list byte) : Py unit :=
  emit (EvWrite path chunk);;
  fs ← get_store;
  match fs !! path with
  | Some (File content) => set_store (<[path := File (content ++ chunk)]> fs)
  | _ => mret tt
  end.

(** [os.system(command)]: the command line goes to the shell as one
    string.  What the launched program then does, to the working
    directory or otherwise, is not part of the model. *)
Definition os_system (command : string) : Py unit := emit (EvSystem command).

(** [release["assets"][0]] on the value held in [self.latest_release]. *)
Definition first_asset (release : PyVal) : Py Asset :=
  match release with
  | PyJson (JObject r) =>
      match assets r with
      | asset :: _ => mret asset
      | [] => raise IndexError
      end
  | _ => raise TypeError
  end.

(** ** [Updater.get_latest_release] *)

Definition msg_rate_limit : string :=
  "[bold red]Error:[/] Rate limit exceeded! Please wait a while before trying again.".
Definition msg_fetch_failed : string :=
  "[bold red]Error:[/] Failed to fetch latest release!".
Definition msg_fetching_prerelease : string :=
  "[blue]Fetching latest pre-release...[/]".
Definition msg_no_prerelease : string :=
  "[bold red]Error:[/] No pre-release found!".

Definition url_releases : string :=
  "https://api.github.com/repos/" ++ github_repo ++ "/releases".
Definition url_latest : string :=
  "https://api.github.com/repos/" ++ github_repo ++ "/releases/latest".

(** The loop [for release in response.json(): if release['prerelease']:
    return release], followed by the two statements after it. *)
Fixpoint for_release_in (rs : list Release) : Py PyVal :=
  match rs with
  | [] => console_print msg_no_prerelease;; mret PyFalse
  | release :: rest =>
      if prerelease release then mret (PyJson (JObject release))
      else for_release_in rest
  end.

(** The [try] block either returns from the function ([inl]) or falls
    through with the response ([inr]). *)
Definition get_latest_release (net : Network) (prelease : bool) : Py PyVal :=
  let url := if prelease then url_releases else url_latest in
  r ← try_except
        (response ← requests_get net url;
         raise_for_status response;;
         if status_code response =? 429 then
           console_print msg_rate_limit;; mret (inl PyFalse)
         else if negb (status_code response =? 200) then
           console_print msg_fetch_failed;; mret (inl PyFalse)
         else mret (inr response))
        (λ e, console_print msg_fetch_failed;; print_exn e;;
              mret (inl PyFalse));
  match r with
  | inl v => mret v
  | inr response =>
      if prelease then
        console_print msg_fetching_prerelease;;
        match body response with
        | JArray rs => for_release_in rs
        | JObject _ => raise TypeError
        end
      else mret (PyJson (body response))
  end.

(** ** [Updater.delete_old_releases] *)

Definition release_prefix : string := "CollapseLoader".

Definition msg_deleted (old_release : string) : string :=
  "[yellow]Deleted old release:[/] " ++ old_release.

Fixpoint for_old_release (exclude_file : option string)
  (old_releases : list string) : Py unit :=
  match old_releases with
  | [] => mret tt
  | old_release :: rest =>
      (if bool_decide (Some old_release ≠ exclude_file) then
         is_file ← os_path_isfile old_release;
         if (is_file : bool) then
           os_remove old_release;;
           console_print (msg_deleted old_release)
         else (mret tt : Py unit)
       else (mret tt : Py unit));;
      for_old_release exclude_file rest
  end.

Definition delete_old_releases (exclude_file : option string) : Py unit :=
  old_releases ← glob_glob release_prefix;
  for_old_release exclude_file old_releases.

(** ** [Updater.download_latest_release] *)

Definition msg_downloading (prelease : bool) (asset_name : string) : string :=
  if prelease
  then "[blue]Downloading latest pre-release:[/]: " ++ asset_name
  else "[blue]Downloading latest release:[/] " ++ asset_name.

Definition msg_downloaded (asset_name : string) : string :=
  "[green]Downloaded successfully:[/] " ++ asset_name.

(** [for chunk in response.iter_content(...)]: write and report each
    chunk; when the stream breaks, the exception leaves the loop. *)
Fixpoint for_chunk (path : string) (cs : list (list byte))
  (ending : option RequestException) : Py unit :=
  match cs with
  | [] =>
      match ending with
      | None => mret tt
      | Some e => raise (ERequest e)
      end
  | chunk :: rest =>
      file_write path chunk;;
      emit (EvAdvance (length chunk));;
      for_chunk path rest ending
  end.

Definition download_latest_release (net : Network) (prelease : bool)
  (latest_release : PyVal) : Py unit :=
  let release := latest_release in
  if negb (truthy release) then mret tt
  else
    asset ← first_asset release;
    console_print (msg_downloading prelease (name asset));;
    emit (EvTask (name asset) (size asset));;
    let download_url := browser_download_url asset in
    response ← requests_get_stream net download_url;
    raise_for_status response;;
    open_wb (name asset);;
    for_chunk (name asset) (chunks (body response)) (broken (body response));;
    console_print (msg_downloaded (name asset)).

(** ** [Updater.main] and the module's last statement *)

Definition msg_already : string := "[yellow]Latest version already downloaded.[/]".
Definition msg_starting : string := "[blue]Starting CollapseLoader...[/]".
Definition msg_panel : string := "[bold blue]Updater for " ++ github_repo ++ "[/]".

(** [argv] is [sys.argv[1:]]. *)
Definition main (net : Network) (prelease : bool) (argv : list string)
  (latest_release : PyVal) : Py unit :=
  if truthy latest_release then
    asset ← first_asset latest_release;
    let latest_release_filename := name asset in
    delete_old_releases (Some latest_release_filename);;
    present ← os_path_exists latest_release_filename;
    (if negb present then download_latest_release net prelease latest_release
     else console_print msg_already);;
    console_print msg_starting;;
    let command := latest_release_filename :: argv in
    os_system (String.concat " " command)
  else mret tt.

(** [Updater.__init__] *)
Definition Updater (net : Network) (prelease : bool) : Py PyVal :=
  console_print msg_panel;;
  get_latest_release net prelease.

(** The whole script, for [sys.argv = argv0 :: argv], from the line after
    [parser.parse_known_args()] on: it describes the runs in which that
    call returns (see [parse_known_args_returns]). *)
Definition script (net : Network) (argv0 : string) (argv : list string)
  : Py unit :=
  let prelease := args_prelease argv in
  if negb (contains "_child.py" argv0) then
    latest_release ← Updater net prelease;
    main net prelease argv latest_release
  else mret tt.

Definition start (fs : Store) : World := {| store := fs; trace := [] |}.

(** * The vocabulary of the statements *)

(** ** Worlds and traces *)

Definition log (ev : Event) (w : World) : World :=
  {| store := store w; trace := trace w ++ [ev] |}.

Definition logs (evs : list Event) (w : World) : World :=
  {| store := store w; trace := trace w ++ evs |}.

(** A transfer is a streamed request: the only kind [main] makes. *)
Definition is_transfer (ev : Event) : bool :=
  match ev with
  | EvGet _ true => true
  | _ => false
  end.

Definition transfers (t : list Event) : list Event := List.filter is_transfer t.

(** A handoff is a call of [os.system]. *)
Definition is_handoff (ev : Event) : bool :=
  match ev with
  | EvSystem _ => true
  | _ => false
  end.

Definition handoffs (t : list Event) : list Event := List.filter is_handoff t.

(** ** Resolution *)

Definition api_url (prelease : bool) : string :=
  if prelease then url_releases else url_latest.

(** ** Pruning *)

(** Events the pruning loop can add to the trace. *)
Definition prune_event (ev : Event) : bool :=
  match ev with
  | EvIsFile _ | EvRemove _ | EvConsole _ => true
  | _ => false
  end.

(** Whether the loop over [l] removes [n] from [fs]. *)
Definition removes (exclude_file : option string) (l : list string)
  (fs : Store) (n : string) : bool :=
  bool_decide (n ∈ l) && bool_decide (Some n ≠ exclude_file) && isfile fs n.

(** A name is stale when the pruning removes it: it matches the pattern,
    it is not the excluded name, and it names a regular file. *)
Definition stale (exclude_file : option string) (fs : Store) (n : string)
  : bool :=
  String.prefix release_prefix n && bool_decide (Some n ≠ exclude_file)
  && isfile fs n.

(** The store the pruning leaves. *)
Definition pruned (exclude_file : option string) (fs : Store) : Store :=
  filter (λ kv, stale exclude_file fs kv.1 = false) fs.

(** The regular files of the store whose names match the release-naming
    pattern: the local artifacts. *)
Definition artifacts (fs : Store) : list string :=
  List.filter (isfile fs) (matching release_prefix fs).

(** ** Download and handoff *)

Definition chunk_events (path : string) (cs : list (list byte)) : list Event :=
  flat_map (λ chunk, [EvWrite path chunk; EvAdvance (length chunk)]) cs.

Definition ending_outcome (ending : option RequestException) : Outcome unit :=
  match ending with
  | None => Done tt
  | Some e => Raised (ERequest e)
  end.

(** What [download_latest_release] adds to the trace up to its request. *)
Definition download_events (prelease : bool) (asset : Asset) : list Event :=
  [EvConsole (msg_downloading prelease (name asset));
   EvTask (name asset) (size asset);
   EvGet (browser_download_url asset) true].

(** The command line given to [os.system]. *)
Definition command_line (target : string) (argv : list string) : string :=
  String.concat " " (target :: argv).

(** The arguments with the launcher's own option taken out, as the
    specification describes the forwarded vector. *)
Definition without_private_flags (argv : list string) : list string :=
  List.filter (λ arg, negb (is_prelease_option arg)) argv.

(** The statements of [main] after the call of [delete_old_releases]
    (the presence check, the download or the report, the handoff), for
    the file name [main] has computed. *)
Definition reconcile (net : Network) (prelease : bool) (argv : list string)
  (latest_release : PyVal) (latest_release_filename : string) : Py unit :=
  present ← os_path_exists latest_release_filename;
  (if negb present then download_latest_release net prelease latest_release
   else console_print msg_already);;
  console_print msg_starting;;
  let command := latest_release_filename :: argv in
  os_system (String.concat " " command).

(** The state in which [main] checks for the target: the store is pruned
    and the trace holds the pruning, then the check. *)
Definition reconciled (target : string) (evs : list Event) (w : World)
  : World :=
  {| store := pruned (Some target) (store w);
     trace := trace w ++ EvGlob "CollapseLoader*" :: evs
                ++ [EvExists target] |}.

(** The store once the target has been downloaded into a pruned store. *)
Definition installed (target : string) (content : list byte) (fs : Store)
  : Store :=
  <[target := File content]> (pruned (Some target) fs).

(** ** Sample registries and stores *)

Definition no_asset : list Asset := [].

Definition no_stream : Reply Stream := Raises (ConnectionError "unreachable").

Definition asset_1 : Asset :=
  {| name := "CollapseLoader_1.0.exe"; size := 4;
     browser_download_url := "https://cdn.example/1.0" |}.

Definition rel_1 : Release :=
  {| tag_name := "v1.0"; prerelease := false; assets := [asset_1] |}.

(** The registry serves release 1.0, four bytes in two chunks. *)
Definition net_serves : Network :=
  {| api := λ _, Returns {| status_code := 200; body := JObject rel_1 |};
     cdn := λ _, Returns {| status_code := 200;
                            body := {| chunks := [[x01; x02]; [x03; x04]];
                                       broken := None |} |} |}.

(** The asset server sends two of four bytes, then the connection drops. *)
Definition net_drops : Network :=
  {| api := λ _, Returns {| status_code := 200; body := JObject rel_1 |};
     cdn := λ _, Returns {| status_code := 200;
                            body := {| chunks := [[x01; x02]];
                                       broken := Some (ChunkedEncodingError
                                                         "connection broken") |} |} |}.

(** The list of the specification's example: a stable release, then two
    pre-releases, "B" before "A". *)
Definition rel_stable : Release :=
  {| tag_name := "C"; prerelease := false; assets := no_asset |}.

Definition asset_B : Asset :=
  {| name := "CollapseLoader_B.exe"; size := 2;
     browser_download_url := "https://cdn.example/B" |}.

Definition rel_B : Release :=
  {| tag_name := "B"; prerelease := true; assets := [asset_B] |}.

Definition rel_A : Release :=
  {| tag_name := "A"; prerelease := true;
     assets := [{| name := "CollapseLoader_A.exe"; size := 2;
                   browser_download_url := "https://cdn.example/A" |}] |}.

Definition net_three : Network :=
  {| api := λ _, Returns {| status_code := 200;
                            body := JArray [rel_stable; rel_B; rel_A] |};
     cdn := λ _, no_stream |}.

(** The "latest" release of a registry that lists no asset for it. *)
Definition rel_bare : Release :=
  {| tag_name := "v2.0"; prerelease := false; assets := no_asset |}.

Definition net_bare : Network :=
  {| api := λ _, Returns {| status_code := 200; body := JObject rel_bare |};
     cdn := λ _, no_stream |}.

(** Registries that refuse the request. *)
Definition net_429 : Network :=
  {| api := λ _, Returns {| status_code := 429; body := JArray [] |};
     cdn := λ _, no_stream |}.

Definition net_404 : Network :=
  {| api := λ _, Returns {| status_code := 404; body := JArray [] |};
     cdn := λ _, no_stream |}.

(** A registry whose asset is not named after the pattern. *)
Definition asset_app : Asset :=
  {| name := "App-2.0.exe"; size := 4;
     browser_download_url := "https://cdn.example/app-2.0" |}.

Definition rel_app : Release :=
  {| tag_name := "2.0"; prerelease := false; assets := [asset_app] |}.

Definition net_app : Network :=
  {| api := λ _, Returns {| status_code := 200; body := JObject rel_app |};
     cdn := λ _, Returns {| status_code := 200;
                            body := {| chunks := [[x01; x02]; [x03; x04]];
                                       broken := None |} |} |}.

Definition fs_old : Store :=
  <["CollapseLoader_0.9.exe" := File [x00]]> (<["notes.txt" := File []]> ∅).

Definition fs_current : Store :=
  <["CollapseLoader_1.0.exe" := File [x01; x02; x03; x04]]> fs_old.

Definition fs_mixed : Store :=
  <["CollapseLoader_0.9.exe" := File [x00]]>
    (<["CollapseLoader_1.0.exe" := File [x01]]>
       (<["CollapseLoader_data" := Dir]> (<["notes.txt" := File []]> ∅))).

Definition fs_has_B : Store := <["CollapseLoader_B.exe" := File [x01; x02]]> ∅.

(** ** Reading traces, and more samples *)

(** The paths [os.remove] was called on, in order. *)
Definition removed (t : list Event) : list string :=
  flat_map (λ ev, match ev with EvRemove path => [path] | _ => [] end) t.

(** The texts printed on the console, in order. *)
Definition printed (t : list Event) : list string :=
  flat_map (λ ev, match ev with EvConsole text => [text] | _ => [] end) t.

(** What one turn of the pruning loop adds to the trace on the name [n],
    over the store [fs]. *)
Definition prune_step (exclude_file : option string) (fs : Store)
  (n : string) : list Event :=
  if bool_decide (Some n ≠ exclude_file) then
    EvIsFile n ::
      (if isfile fs n then [EvRemove n; EvConsole (msg_deleted n)] else [])
  else [].

(** Every request made, streamed or not. *)
Definition is_request (ev : Event) : bool :=
  match ev with
  | EvGet _ _ => true
  | _ => false
  end.

Definition requests (t : list Event) : list Event := List.filter is_request t.

(** Events that only write to the console. *)
Definition report_event (ev : Event) : bool :=
  match ev with
  | EvConsole _ | EvPrintExn _ => true
  | _ => false
  end.

(** What follows the failure report: the exception, when there is one. *)
Definition failure_detail (reply : Reply Json) : list Event :=
  match reply with
  | Raises e => [EvPrintExn e]
  | Returns resp =>
      if bool_decide (400 ≤ status_code resp < 600)
      then [EvPrintExn (HTTPError (status_code resp))]
      else []
  end.

Definition net_down : Network :=
  {| api := λ _, Raises (ConnectionError "name resolution failed");
     cdn := λ _, no_stream |}.

(** The bytes reported to the progress bar, added up. *)
Definition advanced (t : list Event) : nat :=
  list_sum (flat_map (λ ev, match ev with EvAdvance n => [n] | _ => [] end) t).

(** The bytes written to [path], in order. *)
Definition written (path : string) (t : list Event) : list byte :=
  flat_map (λ ev, match ev with
                  | EvWrite p chunk => if String.eqb p path then chunk else []
                  | _ => []
                  end) t.

Definition net_asset_missing : Network :=
  {| api := λ _, Returns {| status_code := 200; body := JObject rel_1 |};
     cdn := λ _, Returns {| status_code := 404;
                            body := {| chunks := []; broken := None |} |} |}.

Definition fs_target_is_dir : Store :=
  <["CollapseLoader_1.0.exe" := Dir]> fs_old.

(** * Reasoning about runs *)

(** ** How each operation runs *)

Section Runs.
Context {A B : Type}.

Lemma bind_run (m : Py A) (k : A → Py B) (w : World) :
  (m ≫= k) w =
    match m w with
    | (Done a, w') => k a w'
    | (Raised e, w') => (Raised e, w')
    end.
Proof. reflexivity. Qed.

Lemma bind_done (m : Py A) (k : A → Py B) (w w' : World) (a : A) :
  m w = (Done a, w') → (m ≫= k) w = k a w'.
Proof. intros H. rewrite bind_run, H. reflexivity. Qed.

Lemma bind_raised (m : Py A) (k : A → Py B) (w w' : World) (e : Exn) :
  m w = (Raised e, w') → (m ≫= k) w = (Raised e, w').
Proof. intros H. rewrite bind_run, H. reflexivity. Qed.

Lemma ret_run (a : A) (w : World) : (mret a : Py A) w = (Done a, w).
Proof. reflexivity. Qed.

End Runs.

Lemma emit_run (ev : Event) (w : World) : emit ev w = (Done tt, log ev w).
Proof. reflexivity. Qed.

Lemma console_print_run (text : string) (w : World) :
  console_print text w = (Done tt, log (EvConsole text) w).
Proof. reflexivity. Qed.

Lemma os_path_isfile_run (path : string) (w : World) :
  os_path_isfile path w = (Done (isfile (store w) path), log (EvIsFile path) w).
Proof. reflexivity. Qed.

Lemma os_path_exists_run (path : string) (w : World) :
  os_path_exists path w = (Done (exists_ (store w) path), log (EvExists path) w).
Proof. reflexivity. Qed.

Lemma os_remove_file (path : string) (w : World) :
  isfile (store w) path = true →
  os_remove path w =
    (Done tt, {| store := delete path (store w);
                 trace := trace w ++ [EvRemove path] |}).
Proof.
  intros H. unfold os_remove. rewrite bind_run, emit_run, bind_run.
  unfold get_store, isfile in *. cbn.
  by destruct (store w !! path) as [[]|].
Qed.

Lemma glob_glob_run (prefix : string) (w : World) :
  glob_glob prefix w =
    (Done (matching prefix (store w)), log (EvGlob (prefix ++ "*")) w).
Proof. reflexivity. Qed.

Lemma elem_of_matching (prefix : string) (fs : Store) (n : string) :
  n ∈ matching prefix fs ↔ String.prefix prefix n = true ∧ is_Some (fs !! n).
Proof.
  unfold matching. rewrite list_elem_of_In, filter_In, <- list_elem_of_In.
  rewrite list_elem_of_fmap. split.
  - intros [[[k v] [-> Hkv]] Hp]. apply elem_of_map_to_list in Hkv.
    split; [done | by exists v].
  - intros [Hp [v Hv]]. split; [| done].
    exists (n, v). split; [done | by apply elem_of_map_to_list].
Qed.

Lemma NoDup_matching (prefix : string) (fs : Store) :
  NoDup (matching prefix fs).
Proof.
  unfold matching. apply NoDup_ListNoDup, List.NoDup_filter, NoDup_ListNoDup.
  apply NoDup_fst_map_to_list.
Qed.

Lemma isfile_is_Some (fs : Store) (n : string) :
  isfile fs n = true → is_Some (fs !! n).
Proof. unfold isfile. destruct (fs !! n) as [[]|]; naive_solver. Qed.

(** ** The pruning loop *)

Lemma removes_cons_ne exclude_file a l fs n :
  n ≠ a → removes exclude_file (a :: l) fs n = removes exclude_file l fs n.
Proof.
  intros Hne. unfold removes. f_equal. f_equal.
  apply bool_decide_ext. rewrite elem_of_cons.
  split; [by intros [?|?] | by right].
Qed.

(** The loop over any list of names: it always completes, removes exactly
    the listed regular files other than the excluded one, and touches
    nothing else. *)
Lemma for_old_release_run (exclude_file : option string) (l : list string)
    (w : World) :
  ∃ fs' evs,
    for_old_release exclude_file l w
      = (Done tt, {| store := fs'; trace := trace w ++ evs |})
    ∧ (∀ n, fs' !! n =
         if removes exclude_file l (store w) n then None else store w !! n)
    ∧ Forall (λ ev, prune_event ev = true) evs.
Proof.
  revert w. induction l as [|a l IH]; intros w.
  - exists (store w), []. cbn. rewrite app_nil_r. split; [by destruct w|].
    split; [|done]. intros n. unfold removes.
    rewrite bool_decide_eq_false_2; [done | apply not_elem_of_nil].
  - cbn [for_old_release]. rewrite bind_run.
    destruct (bool_decide (Some a ≠ exclude_file)) eqn:Hex.
    + rewrite bind_run, os_path_isfile_run.
      destruct (isfile (store w) a) eqn:Hf.
      * rewrite bind_run, os_remove_file by done. rewrite console_print_run.
        match goal with |- context [for_old_release _ _ ?w1] =>
          destruct (IH w1) as (fs' & evs & Hrun & Hlook & Hev) end.
        cbn [store trace log] in *.
        exists fs', ([EvIsFile a; EvRemove a; EvConsole (msg_deleted a)] ++ evs).
        split; [rewrite Hrun; f_equal; f_equal; by rewrite <- !app_assoc|].
        split; [| by repeat constructor].
        intros n. rewrite Hlook. destruct (decide (n = a)) as [->|Hne].
        -- unfold removes at 2. rewrite Hex, Hf.
           rewrite (bool_decide_eq_true_2 (a ∈ a :: l)); [|left].
           cbn. rewrite lookup_delete_eq. by destruct (removes _ _ _ _).
        -- rewrite removes_cons_ne by done. unfold removes, isfile.
           by rewrite lookup_delete_ne.
      * rewrite ret_run.
        match goal with |- context [for_old_release _ _ ?w1] =>
          destruct (IH w1) as (fs' & evs & Hrun & Hlook & Hev) end.
        cbn [store trace log] in *.
        exists fs', ([EvIsFile a] ++ evs).
        split; [rewrite Hrun; f_equal; f_equal; by rewrite <- !app_assoc|].
        split; [| by repeat constructor].
        intros n. rewrite Hlook. destruct (decide (n = a)) as [->|Hne].
        -- unfold removes. rewrite Hf, !andb_false_r. done.
        -- by rewrite removes_cons_ne.
    + rewrite ret_run. destruct (IH w) as (fs' & evs & Hrun & Hlook & Hev).
      exists fs', evs. split; [done|]. split; [|done].
      intros n. rewrite Hlook. destruct (decide (n = a)) as [->|Hne].
      * unfold removes. rewrite Hex, andb_false_r. cbn. by rewrite andb_false_r.
      * by rewrite removes_cons_ne.
Qed.

(** ** [delete_old_releases] as a whole *)

Lemma lookup_pruned (exclude_file : option string) (fs : Store) (n : string) :
  pruned exclude_file fs !! n =
    if stale exclude_file fs n then None else fs !! n.
Proof.
  unfold pruned. destruct (stale exclude_file fs n) eqn:Hs.
  - apply map_lookup_filter_None. right. intros x _. cbn. by rewrite Hs.
  - destruct (fs !! n) as [x|] eqn:Hn.
    + apply map_lookup_filter_Some. by split.
    + apply map_lookup_filter_None. by left.
Qed.

Lemma delete_old_releases_run (exclude_file : option string) (w : World) :
  ∃ evs,
    delete_old_releases exclude_file w
      = (Done tt,
         {| store := pruned exclude_file (store w);
            trace := trace w ++ EvGlob "CollapseLoader*" :: evs |})
    ∧ Forall (λ ev, prune_event ev = true) evs.
Proof.
  unfold delete_old_releases. rewrite bind_run, glob_glob_run.
  destruct (for_old_release_run exclude_file
              (matching release_prefix (store w))
              (log (EvGlob (release_prefix ++ "*")) w))
    as (fs' & evs & Hrun & Hlook & Hev).
  exists evs. split; [|done]. rewrite Hrun. cbn [log store trace].
  f_equal. f_equal; [|by rewrite <- app_assoc].
  apply map_eq. intros n. rewrite Hlook, lookup_pruned. cbn [log store].
  assert (removes exclude_file (matching release_prefix (store w)) (store w) n
          = stale exclude_file (store w) n) as ->; [|done].
  unfold removes, stale. destruct (isfile (store w) n) eqn:Hf;
    [|by rewrite !andb_false_r].
  f_equal. f_equal. apply isfile_is_Some in Hf.
  destruct (String.prefix release_prefix n) eqn:Hp.
  - apply bool_decide_eq_true_2, elem_of_matching. by split.
  - apply bool_decide_eq_false_2. rewrite elem_of_matching. intros [? _].
    congruence.
Qed.

(** The order in which the directory is listed does not matter, nor do
    repetitions: over any listing of the matching names the loop leaves
    the same store. *)
Lemma for_old_release_any_order (exclude_file : option string)
    (l : list string) (w : World) :
  (∀ n, n ∈ l ↔ n ∈ matching release_prefix (store w)) →
  outcome (for_old_release exclude_file l w) = Done tt
  ∧ store_of (for_old_release exclude_file l w)
    = pruned exclude_file (store w).
Proof.
  intros Hl.
  destruct (for_old_release_run exclude_file l w)
    as (fs' & evs & -> & Hlook & _).
  split; [done|]. unfold store_of. cbn [snd store].
  apply map_eq. intros n. rewrite Hlook, lookup_pruned.
  assert (removes exclude_file l (store w) n = stale exclude_file (store w) n)
    as ->; [|done].
  unfold removes, stale. destruct (isfile (store w) n) eqn:Hf;
    [|by rewrite !andb_false_r].
  f_equal. f_equal. apply isfile_is_Some in Hf.
  destruct (String.prefix release_prefix n) eqn:Hp.
  - apply bool_decide_eq_true_2, Hl, elem_of_matching. by split.
  - apply bool_decide_eq_false_2. rewrite Hl, elem_of_matching.
    intros [? _]. congruence.
Qed.

Lemma elem_of_artifacts (fs : Store) (n : string) :
  n ∈ artifacts fs ↔ String.prefix release_prefix n = true ∧ isfile fs n = true.
Proof.
  unfold artifacts. rewrite list_elem_of_In, filter_In, <- list_elem_of_In.
  rewrite elem_of_matching. split; [by intros [[? _] ?]|].
  intros [Hp Hf]. split; [|done]. split; [done|]. by apply isfile_is_Some.
Qed.

Lemma NoDup_artifacts (fs : Store) : NoDup (artifacts fs).
Proof.
  unfold artifacts. apply NoDup_ListNoDup, List.NoDup_filter, NoDup_ListNoDup.
  apply NoDup_matching.
Qed.

Lemma isfile_pruned (exclude_file : option string) (fs : Store) (n : string) :
  isfile (pruned exclude_file fs) n =
    isfile fs n && negb (stale exclude_file fs n).
Proof.
  unfold isfile at 1. rewrite lookup_pruned.
  destruct (stale exclude_file fs n) eqn:Hs; [by rewrite andb_false_r|].
  rewrite andb_true_r. reflexivity.
Qed.

(** After pruning, an artifact can only be the excluded name. *)
Lemma artifacts_pruned (keep : string) (fs : Store) (n : string) :
  n ∈ artifacts (pruned (Some keep) fs) → n = keep.
Proof.
  rewrite elem_of_artifacts, isfile_pruned. intros [Hp Hf].
  apply andb_true_iff in Hf as [Hf Hs]. unfold stale in Hs.
  rewrite Hp, Hf, andb_true_r in Hs. cbn in Hs.
  apply negb_true_iff, bool_decide_eq_false in Hs.
  destruct (decide (n = keep)); [done|]. exfalso. apply Hs. congruence.
Qed.

Lemma NoDup_all_equal {A} (l : list A) (x : A) :
  NoDup l → (∀ y, y ∈ l → y = x) → (length l ≤ 1)%nat.
Proof.
  intros Hnd Hall. destruct l as [|a [|b l]]; cbn; [lia | lia |].
  exfalso. apply NoDup_cons in Hnd as [Hnotin _]. apply Hnotin.
  rewrite (Hall a), (Hall b); [left | right; left | left].
Qed.

(** ** What pruning guarantees *)

(** C5. For every store and every [keep], [delete_old_releases(keep)]
    returns, and afterwards at most one regular file whose name matches
    [CollapseLoader*] remains (the artifacts left are among [[keep]]);
    the entry under [keep] is what it was before, so a file named [keep]
    that existed before the call still exists after it. *)
Theorem delete_old_releases_keeps_at_most_one (fs : Store) (keep : string) :
  let r := delete_old_releases (Some keep) (start fs) in
  outcome r = Done tt
  ∧ (length (artifacts (store_of r)) ≤ 1)%nat
  ∧ artifacts (store_of r) ⊆ [keep]
  ∧ store_of r !! keep = fs !! keep.
Proof.
  cbv zeta. destruct (delete_old_releases_run (Some keep) (start fs))
    as (evs & -> & _).
  unfold outcome, store_of. cbn [fst snd store start].
  split; [done|]. split; [|split].
  - apply (NoDup_all_equal _ keep); [apply NoDup_artifacts|].
    apply artifacts_pruned.
  - intros n Hn. apply artifacts_pruned in Hn as ->. left.
  - rewrite lookup_pruned. unfold stale.
    rewrite (bool_decide_eq_false_2 (Some keep ≠ Some keep)); [|by intros []].
    by rewrite andb_false_r.
Qed.

(** C10. Pruning only ever removes regular files: an entry that is not a
    regular file (a directory) is left as it is, whatever its name and
    whatever [keep] is. *)
Theorem delete_old_releases_leaves_directories (fs : Store) (keep n : string) :
  fs !! n = Some Dir →
  store_of (delete_old_releases (Some keep) (start fs)) !! n = Some Dir.
Proof.
  intros Hdir. destruct (delete_old_releases_run (Some keep) (start fs))
    as (evs & -> & _).
  unfold store_of. cbn [snd store start]. rewrite lookup_pruned.
  unfold stale, isfile. rewrite Hdir. by rewrite andb_false_r.
Qed.

(** A directory named after the pattern, next to two releases. *)
Lemma delete_old_releases_leaves_directories_witness :
  store_of (delete_old_releases (Some "CollapseLoader_1.0.exe") (start fs_mixed))
    !! "CollapseLoader_data" = Some Dir.
Proof.
  apply (delete_old_releases_leaves_directories fs_mixed).
  vm_compute. reflexivity.
Defined.

Example prune_mixed :
  let r := delete_old_releases (Some "CollapseLoader_1.0.exe") (start fs_mixed) in
  artifacts (store_of r) = ["CollapseLoader_1.0.exe"]
  ∧ store_of r !! "CollapseLoader_0.9.exe" = None
  ∧ store_of r !! "notes.txt" = Some (File []).
Proof. vm_compute. done. Qed.

(** ** Resolution *)

Ltac run_resolution :=
  unfold get_latest_release, try_except, requests_get, raise_for_status,
    console_print, print_exn, raise, emit, logs, api_url,
    mbind, Py_bind, mret, Py_ret;
  cbn.

(** The request itself fails. *)
Lemma get_latest_release_transport net prelease e w :
  api net (api_url prelease) = Raises e →
  get_latest_release net prelease w =
    (Done PyFalse,
     logs [EvGet (api_url prelease) false; EvConsole msg_fetch_failed;
           EvPrintExn e] w).
Proof.
  intros H. destruct prelease; cbn [api_url] in H; run_resolution;
    rewrite H; cbn; by rewrite <- ?app_assoc.
Qed.

(** A reply with a status from 400 to 599: [raise_for_status] raises, and
    the handler of the [try] block reports it. *)
Lemma get_latest_release_http_error net prelease resp w :
  api net (api_url prelease) = Returns resp →
  400 ≤ status_code resp < 600 →
  get_latest_release net prelease w =
    (Done PyFalse,
     logs [EvGet (api_url prelease) false; EvConsole msg_fetch_failed;
           EvPrintExn (HTTPError (status_code resp))] w).
Proof.
  intros H Hs. destruct prelease; cbn [api_url] in H; run_resolution;
    rewrite H; cbn; rewrite bool_decide_eq_true_2 by done; cbn;
    by rewrite <- !app_assoc.
Qed.

(** Any other status that is not 200. *)
Lemma get_latest_release_other_status net prelease resp w :
  api net (api_url prelease) = Returns resp →
  ¬ (400 ≤ status_code resp < 600) → status_code resp ≠ 200 →
  get_latest_release net prelease w =
    (Done PyFalse,
     logs [EvGet (api_url prelease) false; EvConsole msg_fetch_failed] w).
Proof.
  intros H Hs H200.
  assert ((status_code resp =? 429) = false) as H429 by lia.
  assert ((status_code resp =? 200) = false) as H200' by lia.
  destruct prelease; cbn [api_url] in H; run_resolution;
    rewrite H; cbn; rewrite bool_decide_eq_false_2 by done; cbn;
    rewrite H429, H200'; cbn; by rewrite <- !app_assoc.
Qed.

(** Status 200 on the stable channel: the body is returned as it is. *)
Lemma get_latest_release_stable net resp w :
  api net url_latest = Returns resp → status_code resp = 200 →
  get_latest_release net false w =
    (Done (PyJson (body resp)), logs [EvGet url_latest false] w).
Proof.
  intros H Hs. run_resolution. rewrite H. cbn.
  rewrite bool_decide_eq_false_2 by lia. cbn. by rewrite Hs.
Qed.

(** Status 200 on the pre-release channel: the loop runs over the body. *)
Lemma get_latest_release_prelease net resp w :
  api net url_releases = Returns resp → status_code resp = 200 →
  get_latest_release net true w =
    match body resp with
    | JArray rs =>
        for_release_in rs
          (logs [EvGet url_releases false; EvConsole msg_fetching_prerelease] w)
    | JObject _ =>
        (Raised TypeError,
         logs [EvGet url_releases false; EvConsole msg_fetching_prerelease] w)
    end.
Proof.
  intros H Hs. run_resolution. rewrite H. cbn.
  rewrite bool_decide_eq_false_2 by lia. cbn. rewrite Hs. cbn.
  rewrite <- !app_assoc. cbn. by destruct (body resp).
Qed.

(** The loop returns the first flagged entry; it reports and returns
    [False] when it runs off the end. *)
Lemma for_release_in_found (l1 l2 : list Release) (r : Release) (w : World) :
  Forall (λ x, prerelease x = false) l1 → prerelease r = true →
  for_release_in (l1 ++ r :: l2) w = (Done (PyJson (JObject r)), w).
Proof.
  intros Hl1 Hr. induction Hl1 as [|x l1 Hx _ IH]; cbn.
  - by rewrite Hr.
  - by rewrite Hx.
Qed.

Lemma for_release_in_none (rs : list Release) (w : World) :
  Forall (λ x, prerelease x = false) rs →
  for_release_in rs w = (Done PyFalse, log (EvConsole msg_no_prerelease) w).
Proof.
  intros Hrs. induction Hrs as [|x l Hx _ IH]; cbn; [done|]. by rewrite Hx.
Qed.

Lemma for_release_in_cases (rs : list Release) (w : World) :
  (∃ l1 r l2, rs = l1 ++ r :: l2 ∧ Forall (λ x, prerelease x = false) l1
              ∧ prerelease r = true
              ∧ for_release_in rs w = (Done (PyJson (JObject r)), w))
  ∨ (Forall (λ x, prerelease x = false) rs
     ∧ for_release_in rs w = (Done PyFalse, log (EvConsole msg_no_prerelease) w)).
Proof.
  induction rs as [|x rs IH]; [right; by split|].
  destruct (prerelease x) eqn:Hx.
  - left. exists [], x, rs. cbn. rewrite Hx. by repeat split.
  - destruct IH as [(l1 & r & l2 & -> & Hl1 & Hr & Hrun)|[Hall Hrun]].
    + left. exists (x :: l1), r, l2. cbn. rewrite Hx.
      repeat split; [by constructor|done|done].
    + right. cbn. rewrite Hx. split; [by constructor|done].
Qed.

(** C6. On the pre-release channel, over the array [rs] the registry
    answers (status 200), resolution returns the first entry, in the
    order of the array, whose [prerelease] flag is true; when no entry
    has the flag it reports that no pre-release was found and fails. *)
Theorem prerelease_resolution_takes_first_flagged
    (net : Network) (rs : list Release) (w : World) :
  api net url_releases = Returns {| status_code := 200; body := JArray rs |} →
  (∀ l1 r l2,
     rs = l1 ++ r :: l2 → Forall (λ x, prerelease x = false) l1 →
     prerelease r = true →
     outcome (get_latest_release net true w) = Done (PyJson (JObject r)))
  ∧ (Forall (λ x, prerelease x = false) rs →
     outcome (get_latest_release net true w) = Done PyFalse
     ∧ last (trace_of (get_latest_release net true w))
         = Some (EvConsole msg_no_prerelease)).
Proof.
  intros Hapi. rewrite (get_latest_release_prelease _ _ _ Hapi) by done.
  cbn [body]. split.
  - intros l1 r l2 -> Hl1 Hr. by rewrite for_release_in_found.
  - intros Hrs. rewrite for_release_in_none by done. split; [done|].
    unfold trace_of, log. cbn [snd trace]. apply last_snoc.
Qed.

(** The example of the specification: "B" comes first and is returned. *)
Lemma prerelease_resolution_takes_first_flagged_witness :
  outcome (get_latest_release net_three true (start ∅))
    = Done (PyJson (JObject rel_B)).
Proof.
  refine (proj1 (prerelease_resolution_takes_first_flagged net_three
            [rel_stable; rel_B; rel_A] (start ∅) _) [rel_stable] rel_B [rel_A] _ _ _).
  - reflexivity.
  - reflexivity.
  - by repeat constructor.
  - reflexivity.
Defined.

(** Whatever the registry answers, resolution runs to one of four ends. *)
Lemma get_latest_release_cases (net : Network) (prelease : bool) (w : World) :
  outcome (get_latest_release net prelease w) = Done PyFalse
  ∨ (prelease = false
     ∧ ∃ resp, api net url_latest = Returns resp ∧ status_code resp = 200
         ∧ outcome (get_latest_release net prelease w)
             = Done (PyJson (body resp)))
  ∨ (prelease = true
     ∧ ∃ resp rs r, api net url_releases = Returns resp
         ∧ status_code resp = 200 ∧ body resp = JArray rs
         ∧ r ∈ rs ∧ prerelease r = true
         ∧ outcome (get_latest_release net prelease w)
             = Done (PyJson (JObject r)))
  ∨ (prelease = true
     ∧ ∃ resp r, api net url_releases = Returns resp
         ∧ status_code resp = 200 ∧ body resp = JObject r
         ∧ outcome (get_latest_release net prelease w) = Raised TypeError).
Proof.
  destruct (api net (api_url prelease)) as [e|resp] eqn:Hapi.
  { left. by rewrite (get_latest_release_transport _ _ _ _ Hapi). }
  destruct (decide (400 ≤ status_code resp < 600)) as [Herr|Hok].
  { left. by rewrite (get_latest_release_http_error _ _ _ _ Hapi). }
  destruct (decide (status_code resp = 200)) as [H200|Hne].
  2: { left. by rewrite (get_latest_release_other_status _ _ _ _ Hapi). }
  destruct prelease; cbn [api_url] in Hapi.
  - rewrite (get_latest_release_prelease _ _ _ Hapi H200).
    destruct (body resp) as [r|rs] eqn:Hbody.
    + do 3 right. split; [done|]. by exists resp, r.
    + match goal with |- context [for_release_in rs ?w1] =>
        destruct (for_release_in_cases rs w1)
          as [(l1 & r & l2 & -> & _ & Hr & ->)|[_ ->]] end.
      * right; right; left. split; [done|]. exists resp, (l1 ++ r :: l2), r.
        repeat split; try done. apply elem_of_app. right. left.
      * by left.
  - right; left. split; [done|]. exists resp.
    by rewrite (get_latest_release_stable _ _ _ Hapi H200).
Qed.

Ltac resolution_absurd :=
  repeat match goal with
         | H : _ ∨ _ |- _ => destruct H
         | H : _ ∧ _ |- _ => destruct H
         | H : ∃ _, _ |- _ => destruct H
         end;
  simplify_eq; cbn [api_url] in *; simplify_eq;
  repeat match goal with
         | H1 : api ?n ?u = _, H2 : api ?n ?u = _ |- _ =>
             rewrite H1 in H2; simplify_eq
         end;
  try done; try congruence.

(** C1 (as the code has it). Resolution fails, that is returns [False],
    exactly when the request raises, the status is not 200, or, on the
    pre-release channel, no entry of the array has the flag.  Otherwise it
    returns the release the registry's answer selects, as it is and
    whatever its asset list: on the stable channel the body of the
    "latest" answer, so also a release that lists no asset; on the
    pre-release channel the first entry of the array that has the flag.
    It ends with an exception in one case only: an "all releases" answer
    that is an object and not an array. *)
Theorem resolution_returns_registry_release
    (net : Network) (prelease : bool) (w : World) :
  (∀ resp, api net url_latest = Returns resp → status_code resp = 200 →
     outcome (get_latest_release net false w) = Done (PyJson (body resp)))
  ∧ (∀ resp r, api net url_latest = Returns resp → status_code resp = 200 →
       body resp = JObject r → assets r = [] →
       outcome (get_latest_release net false w) = Done (PyJson (JObject r)))
  ∧ (∀ resp l1 r l2,
       api net url_releases = Returns resp → status_code resp = 200 →
       body resp = JArray (l1 ++ r :: l2) →
       Forall (λ x, prerelease x = false) l1 → prerelease r = true →
       outcome (get_latest_release net true w) = Done (PyJson (JObject r)))
  ∧ (outcome (get_latest_release net prelease w) = Done PyFalse
     ↔ (∃ e, api net (api_url prelease) = Raises e)
       ∨ (∃ resp, api net (api_url prelease) = Returns resp
            ∧ status_code resp ≠ 200)
       ∨ (prelease = true
          ∧ ∃ resp rs, api net url_releases = Returns resp
              ∧ status_code resp = 200 ∧ body resp = JArray rs
              ∧ Forall (λ x, prerelease x = false) rs))
  ∧ (∀ e, outcome (get_latest_release net prelease w) = Raised e
          ↔ e = TypeError ∧ prelease = true
            ∧ ∃ resp r, api net url_releases = Returns resp
                ∧ status_code resp = 200 ∧ body resp = JObject r).
Proof.
  split; [|split; [|split]].
  - intros resp Hapi Hs. by rewrite (get_latest_release_stable _ _ _ Hapi Hs).
  - intros resp r Hapi Hs Hb _.
    by rewrite (get_latest_release_stable _ _ _ Hapi Hs), Hb.
  - intros resp l1 r l2 Hapi Hs Hb Hl1 Hr.
    rewrite (get_latest_release_prelease _ _ _ Hapi Hs), Hb.
    by rewrite for_release_in_found.
  - destruct (api net (api_url prelease)) as [e|resp] eqn:Hapi.
    { rewrite (get_latest_release_transport _ _ _ _ Hapi). split.
      - split; [|done]. intros _. left. by exists e.
      - intros e'. split; [done|]. intros H. resolution_absurd. }
    destruct (decide (status_code resp = 200)) as [H200|Hne].
    2: { assert (outcome (get_latest_release net prelease w) = Done PyFalse)
           as ->.
         { destruct (decide (400 ≤ status_code resp < 600)) as [Herr|Hok].
           - by rewrite (get_latest_release_http_error _ _ _ _ Hapi Herr).
           - by rewrite (get_latest_release_other_status _ _ _ _ Hapi Hok Hne). }
         split.
         - split; [|done]. intros _. right. left. by exists resp.
         - intros e'. split; [done|]. intros H. resolution_absurd. }
    destruct prelease; cbn [api_url] in Hapi.
    + rewrite (get_latest_release_prelease _ _ _ Hapi H200).
      destruct (body resp) as [r|rs] eqn:Hbody.
      * split.
        -- split; [done|]. intros H. resolution_absurd.
        -- intros e. split.
           ++ intros [= <-]. split; [done|]. split; [done|]. by exists resp, r.
           ++ by intros [-> _].
      * match goal with |- context [for_release_in rs ?w1] =>
          destruct (for_release_in_cases rs w1)
            as [(l1 & r & l2 & -> & Hl1 & Hr & ->)|[Hall ->]] end.
        -- split.
           ++ split; [done|]. intros H. resolution_absurd.
              match goal with
              | Hb : body _ = JArray ?rs, H : Forall _ ?rs |- _ =>
                  rewrite Hbody in Hb; injection Hb as <-;
                  apply Forall_app in H as [_ H];
                  apply Forall_cons in H as [H _]; congruence
              end.
           ++ intros e. split; [done|]. intros H. resolution_absurd.
        -- split.
           ++ split; [|done]. intros _. right. right. split; [done|].
              by exists resp, rs.
           ++ intros e. split; [done|]. intros H. resolution_absurd.
    + rewrite (get_latest_release_stable _ _ _ Hapi H200). split.
      * split; [done|]. intros H. resolution_absurd.
      * intros e. split; [done|]. intros H. resolution_absurd.
Qed.

(** C1, as stated, fails: on the stable channel, for an answer whose
    asset list is empty, resolution returns the candidate, with no
    asset, and nothing is reported. *)
Lemma resolution_returns_candidate_without_asset :
  get_latest_release net_bare false (start ∅)
    = (Done (PyJson (JObject rel_bare)),
       {| store := ∅; trace := [EvGet url_latest false] |})
  ∧ assets rel_bare = [].
Proof. split; reflexivity. Qed.

(** What [main] then does with such a candidate: [assets[0]] raises
    before anything is pruned, downloaded or launched. *)
Example main_on_candidate_without_asset :
  script net_bare "main.py" [] (start ∅)
    = (Raised IndexError,
       {| store := ∅;
          trace := [EvConsole msg_panel; EvGet url_latest false] |}).
Proof. reflexivity. Qed.

(** ** Failure reports *)

(** The rate-limit report is never printed: a reply with status 429
    leaves the [try] block through [raise_for_status] before the test on
    the status is reached. *)
Lemma rate_limit_report_unreachable (net : Network) (prelease : bool)
    (w : World) :
  EvConsole msg_rate_limit ∉ trace w →
  EvConsole msg_rate_limit ∉ trace_of (get_latest_release net prelease w).
Proof.
  intros Hw. unfold trace_of.
  destruct (api net (api_url prelease)) as [e|resp] eqn:Hapi.
  { rewrite (get_latest_release_transport _ _ _ _ Hapi). cbn.
    rewrite elem_of_app, !elem_of_cons, elem_of_nil.
    intros [?|[?|[?|[?|[]]]]]; done. }
  destruct (decide (400 ≤ status_code resp < 600)) as [Herr|Hok].
  { rewrite (get_latest_release_http_error _ _ _ _ Hapi Herr). cbn.
    rewrite elem_of_app, !elem_of_cons, elem_of_nil.
    intros [?|[?|[?|[?|[]]]]]; done. }
  destruct (decide (status_code resp = 200)) as [H200|Hne].
  2: { rewrite (get_latest_release_other_status _ _ _ _ Hapi Hok Hne). cbn.
       rewrite elem_of_app, !elem_of_cons, elem_of_nil.
       intros [?|[?|[?|[]]]]; done. }
  destruct prelease; cbn [api_url] in Hapi.
  - rewrite (get_latest_release_prelease _ _ _ Hapi H200).
    assert (EvConsole msg_rate_limit ∉ trace (logs
              [EvGet url_releases false; EvConsole msg_fetching_prerelease] w))
      as Hw'.
    { cbn. rewrite elem_of_app, !elem_of_cons, elem_of_nil.
      intros [?|[?|[?|[]]]]; done. }
    destruct (body resp) as [r|rs]; [done|].
    match goal with |- context [for_release_in rs ?w1] =>
      destruct (for_release_in_cases rs w1)
        as [(l1 & r & l2 & _ & _ & _ & ->)|[_ ->]] end; [done|].
    cbn [snd log trace]. rewrite elem_of_app, list_elem_of_singleton.
    intros [?|?]; done.
  - rewrite (get_latest_release_stable _ _ _ Hapi H200). cbn.
    rewrite elem_of_app, list_elem_of_singleton. intros [?|?]; done.
Qed.

(** C4, where the code departs from it. A reply with status 429 gets the
    report of a failed fetch, followed by the exception, exactly as a
    reply with status 404 does; the rate-limit report is not printed. *)
Theorem rate_limited_reply_gets_fetch_failure_report :
  get_latest_release net_429 false (start ∅)
    = (Done PyFalse,
       {| store := ∅;
          trace := [EvGet url_latest false; EvConsole msg_fetch_failed;
                    EvPrintExn (HTTPError 429)] |})
  ∧ get_latest_release net_404 false (start ∅)
    = (Done PyFalse,
       {| store := ∅;
          trace := [EvGet url_latest false; EvConsole msg_fetch_failed;
                    EvPrintExn (HTTPError 404)] |})
  ∧ EvConsole msg_rate_limit
      ∉ trace_of (get_latest_release net_429 false (start ∅)).
Proof.
  split; [reflexivity|]. split; [reflexivity|].
  apply rate_limit_report_unreachable. cbn. apply not_elem_of_nil.
Qed.

(** ** Download *)

(** The loop over the chunks, on an open file: every chunk the stream
    yields is appended, whether or not the stream then breaks. *)
Lemma for_chunk_run (path : string) (cs : list (list byte))
    (ending : option RequestException) (content : list byte) (w : World) :
  store w !! path = Some (File content) →
  for_chunk path cs ending w =
    (ending_outcome ending,
     {| store := <[path := File (content ++ concat cs)]> (store w);
        trace := trace w ++ chunk_events path cs |}).
Proof.
  revert content w. induction cs as [|c cs IH]; intros content w Hw.
  - cbn. rewrite !app_nil_r, insert_id by done.
    destruct w, ending; reflexivity.
  - cbn [for_chunk]. unfold file_write, emit, get_store, set_store.
    unfold mbind, Py_bind, mret, Py_ret. cbn. rewrite Hw. cbn.
    rewrite (IH (content ++ c)).
    + cbn. rewrite insert_insert_eq, <- !app_assoc. reflexivity.
    + cbn. apply lookup_insert_eq.
Qed.

Lemma first_asset_run (r : Release) (asset : Asset) (rest : list Asset)
    (w : World) :
  assets r = asset :: rest → first_asset (PyJson (JObject r)) w = (Done asset, w).
Proof. intros H. unfold first_asset. by rewrite H. Qed.

Lemma requests_get_stream_run net url w :
  requests_get_stream net url w =
    match cdn net url with
    | Raises e => (Raised (ERequest e), log (EvGet url true) w)
    | Returns resp => (Done resp, log (EvGet url true) w)
    end.
Proof.
  unfold requests_get_stream. rewrite bind_run, emit_run.
  by destruct (cdn net url).
Qed.

Lemma raise_for_status_run {A} (resp : Response A) (w : World) :
  raise_for_status resp w =
    if bool_decide (400 ≤ status_code resp < 600)
    then (Raised (ERequest (HTTPError (status_code resp))), w)
    else (Done tt, w).
Proof. unfold raise_for_status. by destruct (bool_decide _). Qed.

Lemma open_wb_run (path : string) (w : World) :
  store w !! path ≠ Some Dir →
  open_wb path w =
    (Done tt, {| store := <[path := File []]> (store w);
                 trace := trace w ++ [EvOpen path] |}).
Proof.
  intros H. unfold open_wb. rewrite bind_run, emit_run, bind_run.
  unfold get_store. cbn. by destruct (store w !! path) as [[|]|].
Qed.

Lemma open_wb_directory (path : string) (w : World) :
  store w !! path = Some Dir →
  open_wb path w = (Raised (IsADirectoryError path), log (EvOpen path) w).
Proof.
  intros H. unfold open_wb. rewrite bind_run, emit_run, bind_run.
  unfold get_store. cbn. by rewrite H.
Qed.

(** Everything [download_latest_release] does up to the request. *)
Lemma download_latest_release_run net prelease r asset rest w :
  assets r = asset :: rest →
  download_latest_release net prelease (PyJson (JObject r)) w =
    match cdn net (browser_download_url asset) with
    | Raises e =>
        (Raised (ERequest e), logs (download_events prelease asset) w)
    | Returns resp =>
        if bool_decide (400 ≤ status_code resp < 600)
        then (Raised (ERequest (HTTPError (status_code resp))),
              logs (download_events prelease asset) w)
        else
          (open_wb (name asset);;
           for_chunk (name asset) (chunks (body resp)) (broken (body resp));;
           console_print (msg_downloaded (name asset)))
            (logs (download_events prelease asset) w)
    end.
Proof.
  intros Ha. unfold download_latest_release. cbn [truthy negb].
  rewrite bind_run, (first_asset_run _ _ _ _ Ha).
  rewrite bind_run, console_print_run, bind_run, emit_run.
  rewrite bind_run, requests_get_stream_run.
  assert (log (EvGet (browser_download_url asset) true)
            (log (EvTask (name asset) (size asset))
               (log (EvConsole (msg_downloading prelease (name asset))) w))
          = logs (download_events prelease asset) w) as ->.
  { unfold log, logs. cbn. by rewrite <- !app_assoc. }
  destruct (cdn net (browser_download_url asset)) as [e|resp]; [done|].
  rewrite bind_run, raise_for_status_run. by destruct (bool_decide _).
Qed.

(** The request for the asset fails, or is refused: nothing is written. *)
Lemma download_refused net prelease r asset rest w :
  assets r = asset :: rest →
  (∃ e, cdn net (browser_download_url asset) = Raises e)
  ∨ (∃ resp, cdn net (browser_download_url asset) = Returns resp
       ∧ 400 ≤ status_code resp < 600) →
  ∃ e, download_latest_release net prelease (PyJson (JObject r)) w
       = (Raised e, logs (download_events prelease asset) w).
Proof.
  intros Ha H. rewrite (download_latest_release_run _ _ _ _ _ _ Ha).
  destruct H as [[e ->]|(resp & -> & Hs)]; [by eexists|].
  rewrite bool_decide_eq_true_2 by done. by eexists.
Qed.

(** The target is a directory: [open] raises. *)
Lemma download_onto_directory net prelease r asset rest resp w :
  assets r = asset :: rest →
  cdn net (browser_download_url asset) = Returns resp →
  ¬ (400 ≤ status_code resp < 600) →
  store w !! name asset = Some Dir →
  download_latest_release net prelease (PyJson (JObject r)) w
    = (Raised (IsADirectoryError (name asset)),
       logs (download_events prelease asset ++ [EvOpen (name asset)]) w).
Proof.
  intros Ha Hresp Hs Hdir. rewrite (download_latest_release_run _ _ _ _ _ _ Ha).
  rewrite Hresp, bool_decide_eq_false_2 by done.
  rewrite bind_run, open_wb_directory by done.
  unfold log, logs. cbn. by rewrite <- !app_assoc.
Qed.

(** The asset server answers and the target can be opened: the file is
    created under the target name and receives every chunk of the
    stream; the outcome is that of the stream. *)
Lemma download_streams net prelease r asset rest resp w :
  assets r = asset :: rest →
  cdn net (browser_download_url asset) = Returns resp →
  ¬ (400 ≤ status_code resp < 600) →
  store w !! name asset ≠ Some Dir →
  download_latest_release net prelease (PyJson (JObject r)) w
    = (ending_outcome (broken (body resp)),
       {| store := <[name asset := File (concat (chunks (body resp)))]> (store w);
          trace := trace w ++ download_events prelease asset
                     ++ [EvOpen (name asset)]
                     ++ chunk_events (name asset) (chunks (body resp))
                     ++ match broken (body resp) with
                        | None => [EvConsole (msg_downloaded (name asset))]
                        | Some _ => []
                        end |}).
Proof.
  intros Ha Hresp Hs Hdir. rewrite (download_latest_release_run _ _ _ _ _ _ Ha).
  rewrite Hresp, bool_decide_eq_false_2 by done.
  rewrite bind_run, open_wb_run by done.
  rewrite bind_run, (for_chunk_run _ _ _ []) by apply lookup_insert_eq.
  cbn [store trace logs]. rewrite insert_insert_eq. cbn [app].
  destruct (broken (body resp)); cbn [ending_outcome].
  - by rewrite app_nil_r, <- !app_assoc.
  - rewrite console_print_run. unfold log. cbn [store trace].
    by rewrite <- !app_assoc.
Qed.

(** ** [main] *)

Lemma exists_pruned (keep : string) (fs : Store) :
  exists_ (pruned (Some keep) fs) keep = exists_ fs keep.
Proof.
  unfold exists_. rewrite lookup_pruned. unfold stale.
  rewrite (bool_decide_eq_false_2 (Some keep ≠ Some keep)); [|by intros []].
  by rewrite andb_false_r.
Qed.

Lemma main_run net prelease argv r asset rest w :
  assets r = asset :: rest →
  ∃ evs,
    Forall (λ ev, prune_event ev = true) evs
    ∧ main net prelease argv (PyJson (JObject r)) w =
        if exists_ (store w) (name asset) then
          (Done tt,
           logs [EvConsole msg_already; EvConsole msg_starting;
                 EvSystem (command_line (name asset) argv)]
             (reconciled (name asset) evs w))
        else
          match download_latest_release net prelease (PyJson (JObject r))
                  (reconciled (name asset) evs w) with
          | (Done _, w2) =>
              (Done tt,
               logs [EvConsole msg_starting;
                     EvSystem (command_line (name asset) argv)] w2)
          | (Raised e, w2) => (Raised e, w2)
          end.
Proof.
  intros Ha.
  destruct (delete_old_releases_run (Some (name asset)) w) as (evs & Hrun & Hev).
  exists evs. split; [done|].
  unfold main. cbn [truthy].
  rewrite bind_run, (first_asset_run _ _ _ _ Ha).
  rewrite bind_run, Hrun, bind_run, os_path_exists_run.
  unfold log at 1. cbn [store trace]. rewrite exists_pruned.
  assert ({| store := pruned (Some (name asset)) (store w);
             trace := (trace w ++ EvGlob "CollapseLoader*" :: evs)
                        ++ [EvExists (name asset)] |}
          = reconciled (name asset) evs w) as ->.
  { unfold reconciled. by rewrite <- app_assoc. }
  destruct (exists_ (store w) (name asset)); cbn [negb].
  - rewrite bind_run, console_print_run, bind_run, console_print_run.
    unfold os_system. rewrite emit_run. unfold log, logs. cbn [store trace].
    by rewrite <- !app_assoc.
  - rewrite bind_run.
    destruct (download_latest_release _ _ _ _) as [[[]|e] w2]; [|done].
    rewrite bind_run, console_print_run.
    unfold os_system. rewrite emit_run. unfold log, logs. cbn [store trace].
    by rewrite <- !app_assoc.
Qed.

(** The store after any run of [main] on a candidate: the pruned store,
    with the target written when a download got as far as opening it. *)
Lemma main_store_other net prelease argv r asset rest w n :
  assets r = asset :: rest → n ≠ name asset →
  store_of (main net prelease argv (PyJson (JObject r)) w) !! n
    = pruned (Some (name asset)) (store w) !! n.
Proof.
  intros Ha Hn. destruct (main_run net prelease argv r asset rest w Ha)
    as (evs & _ & ->).
  unfold store_of.
  destruct (exists_ (store w) (name asset)); [done|].
  rewrite (download_latest_release_run _ _ _ _ _ _ Ha).
  destruct (cdn net (browser_download_url asset)) as [e|resp]; [done|].
  destruct (bool_decide (400 ≤ status_code resp < 600)); [done|].
  set (w1 := logs _ _).
  assert (store w1 !! name asset = Some Dir
          ∨ store w1 !! name asset ≠ Some Dir) as [Hdir|Hdir].
  { destruct (store w1 !! name asset) as [[|]|]; auto. }
  - by rewrite bind_run, open_wb_directory.
  - rewrite bind_run, open_wb_run by done.
    rewrite bind_run, (for_chunk_run _ _ _ []) by apply lookup_insert_eq.
    cbn [store]. rewrite insert_insert_eq.
    destruct (broken (body resp)); cbn [ending_outcome snd store logs].
    + by rewrite lookup_insert_ne.
    + rewrite console_print_run. cbn. by rewrite lookup_insert_ne.
Qed.

Lemma transfers_app (t1 t2 : list Event) :
  transfers (t1 ++ t2) = transfers t1 ++ transfers t2.
Proof. apply List.filter_app. Qed.

Lemma transfers_prune_events (evs : list Event) :
  Forall (λ ev, prune_event ev = true) evs → transfers evs = [].
Proof.
  induction 1 as [|ev evs Hev _ IH]; [done|].
  destruct ev as [| |? []| | | | | | | | |]; try done; cbn; apply IH.
Qed.

Lemma transfers_chunk_events (path : string) (cs : list (list byte)) :
  transfers (chunk_events path cs) = [].
Proof. induction cs as [|c cs IH]; [done|]. cbn. apply IH. Qed.

(** Whatever becomes of it, a call of [download_latest_release] on a
    candidate makes exactly one transfer request, for the asset's URL. *)
Lemma download_trace net prelease r asset rest w :
  assets r = asset :: rest →
  ∃ evs,
    trace_of (download_latest_release net prelease (PyJson (JObject r)) w)
      = trace w ++ evs
    ∧ transfers evs = [EvGet (browser_download_url asset) true].
Proof.
  intros Ha. unfold trace_of.
  destruct (cdn net (browser_download_url asset)) as [e|resp] eqn:Hcdn.
  { destruct (download_refused net prelease r asset rest w Ha) as [e' ->].
    - left. by exists e.
    - by exists (download_events prelease asset). }
  destruct (decide (400 ≤ status_code resp < 600)) as [Hs|Hs].
  { destruct (download_refused net prelease r asset rest w Ha) as [e' ->].
    - right. by exists resp.
    - by exists (download_events prelease asset). }
  assert (store w !! name asset = Some Dir
          ∨ store w !! name asset ≠ Some Dir) as [Hdir|Hdir].
  { destruct (store w !! name asset) as [[|]|]; auto. }
  - rewrite (download_onto_directory _ _ _ _ _ _ _ Ha Hcdn Hs Hdir).
    by eexists.
  - rewrite (download_streams _ _ _ _ _ _ _ Ha Hcdn Hs Hdir). cbn [snd trace].
    eexists. split; [reflexivity|].
    rewrite !transfers_app, transfers_chunk_events.
    by destruct (broken (body resp)).
Qed.

(** The transfers of a run of [main]: one request for the asset when
    the target is absent, none when it is present. *)
Lemma main_transfers net prelease argv r asset rest w :
  assets r = asset :: rest →
  transfers (trace_of (main net prelease argv (PyJson (JObject r)) w))
    = transfers (trace w)
        ++ (if exists_ (store w) (name asset) then []
            else [EvGet (browser_download_url asset) true]).
Proof.
  intros Ha.
  destruct (main_run net prelease argv r asset rest w Ha) as (evs & Hev & Hrun).
  assert (transfers (trace (reconciled (name asset) evs w))
          = transfers (trace w)) as Hrec.
  { unfold reconciled. cbn [trace].
    rewrite transfers_app. cbn. rewrite transfers_app.
    rewrite (transfers_prune_events evs) by done. cbn. by rewrite app_nil_r. }
  rewrite Hrun. unfold trace_of.
  destruct (exists_ (store w) (name asset)).
  - cbn [snd logs trace]. rewrite transfers_app, Hrec. cbn.
    by rewrite app_nil_r.
  - destruct (download_trace net prelease r asset rest
                (reconciled (name asset) evs w) Ha) as (devs & Hd & Ht).
    unfold trace_of in Hd.
    destruct (download_latest_release _ _ _ _) as [[[]|e] w2];
      cbn [snd trace logs] in *; rewrite Hd.
    + rewrite !transfers_app, Hrec, Ht. cbn. by rewrite app_nil_r.
    + by rewrite !transfers_app, Hrec, Ht.
Qed.

(** The whole run of [main] when the target is present. *)
Lemma main_present net prelease argv r asset rest w :
  assets r = asset :: rest →
  exists_ (store w) (name asset) = true →
  ∃ evs,
    Forall (λ ev, prune_event ev = true) evs
    ∧ main net prelease argv (PyJson (JObject r)) w =
        (Done tt,
         {| store := pruned (Some (name asset)) (store w);
            trace := trace w ++ EvGlob "CollapseLoader*" :: evs
                       ++ [EvExists (name asset); EvConsole msg_already;
                           EvConsole msg_starting;
                           EvSystem (command_line (name asset) argv)] |}).
Proof.
  intros Ha Hex.
  destruct (main_run net prelease argv r asset rest w Ha) as (evs & Hev & Hrun).
  exists evs. split; [done|]. rewrite Hrun, Hex.
  unfold logs, reconciled. cbn [store trace].
  rewrite <- !app_assoc. cbn. by rewrite <- !app_assoc.
Qed.



(** ** Handoff *)

Lemma handoffs_app (t1 t2 : list Event) :
  handoffs (t1 ++ t2) = handoffs t1 ++ handoffs t2.
Proof. apply List.filter_app. Qed.

Lemma handoffs_prune_events (evs : list Event) :
  Forall (λ ev, prune_event ev = true) evs → handoffs evs = [].
Proof.
  induction 1 as [|ev evs Hev _ IH]; [done|].
  destruct ev; try done; cbn; apply IH.
Qed.

Lemma handoffs_chunk_events (path : string) (cs : list (list byte)) :
  handoffs (chunk_events path cs) = [].
Proof. induction cs as [|c cs IH]; [done|]. cbn. apply IH. Qed.

Lemma handoffs_reconciled (target : string) (evs : list Event) (w : World) :
  Forall (λ ev, prune_event ev = true) evs →
  handoffs (trace (reconciled target evs w)) = handoffs (trace w).
Proof.
  intros Hev. unfold reconciled. cbn [trace].
  rewrite handoffs_app. cbn. rewrite handoffs_app.
  rewrite (handoffs_prune_events evs) by done. cbn. by rewrite app_nil_r.
Qed.

(** [download_latest_release] never launches anything. *)
Lemma download_handoffs net prelease r asset rest w :
  assets r = asset :: rest →
  handoffs (trace_of (download_latest_release net prelease
                        (PyJson (JObject r)) w))
    = handoffs (trace w).
Proof.
  intros Ha. unfold trace_of.
  destruct (cdn net (browser_download_url asset)) as [e|resp] eqn:Hcdn.
  { destruct (download_refused net prelease r asset rest w Ha) as [e' ->].
    - left. by exists e.
    - cbn. rewrite handoffs_app. cbn. by rewrite app_nil_r. }
  destruct (decide (400 ≤ status_code resp < 600)) as [Hs|Hs].
  { destruct (download_refused net prelease r asset rest w Ha) as [e' ->].
    - right. by exists resp.
    - cbn. rewrite handoffs_app. cbn. by rewrite app_nil_r. }
  assert (store w !! name asset = Some Dir
          ∨ store w !! name asset ≠ Some Dir) as [Hdir|Hdir].
  { destruct (store w !! name asset) as [[|]|]; auto. }
  - rewrite (download_onto_directory _ _ _ _ _ _ _ Ha Hcdn Hs Hdir).
    cbn. rewrite handoffs_app. cbn. by rewrite app_nil_r.
  - rewrite (download_streams _ _ _ _ _ _ _ Ha Hcdn Hs Hdir). cbn [snd trace].
    rewrite !handoffs_app, handoffs_chunk_events.
    destruct (broken (body resp)); cbn; by rewrite app_nil_r.
Qed.

Lemma last_app_snoc {A} (l l' : list A) (x : A) :
  last (l ++ l' ++ [x]) = Some x.
Proof. rewrite app_assoc. apply last_snoc. Qed.

(** C3 (as the code has it). In every run of [main] that reaches the
    handoff, the command given to [os.system] is the target's name
    followed by every argument the launcher received, in order and
    unchanged, joined by spaces; nothing is taken out of them, whatever
    [args.prelease] is.  It is the run's last event and its only
    handoff. *)
Theorem handoff_forwards_all_arguments
    (net : Network) (prelease : bool) (argv : list string)
    (r : Release) (asset : Asset) (rest : list Asset) (w : World) :
  assets r = asset :: rest →
  outcome (main net prelease argv (PyJson (JObject r)) w) = Done tt →
  last (trace_of (main net prelease argv (PyJson (JObject r)) w))
    = Some (EvSystem (String.concat " " (name asset :: argv)))
  ∧ handoffs (trace_of (main net prelease argv (PyJson (JObject r)) w))
    = handoffs (trace w)
        ++ [EvSystem (String.concat " " (name asset :: argv))].
Proof.
  intros Ha.
  destruct (main_run net prelease argv r asset rest w Ha) as (evs & Hev & ->).
  unfold outcome, trace_of, command_line.
  destruct (exists_ (store w) (name asset)).
  - intros _. cbn [snd logs trace]. split.
    + apply (last_app_snoc _ [_; _]).
    + rewrite handoffs_app, handoffs_reconciled by done. done.
  - pose proof (download_handoffs net prelease r asset rest
                  (reconciled (name asset) evs w) Ha) as Hd.
    unfold trace_of in Hd.
    destruct (download_latest_release _ _ _ _) as [[[]|e] w2]; [|done].
    intros _. cbn [snd logs trace] in *. split.
    + apply (last_app_snoc _ [_]).
    + rewrite handoffs_app, Hd, handoffs_reconciled by done. done.
Qed.

(** A run on the pre-release channel with the target in place. *)
Lemma handoff_forwards_all_arguments_witness :
  last (trace_of (main net_three true ["--prelease"; "--fast"]
                    (PyJson (JObject rel_B)) (start fs_has_B)))
    = Some (EvSystem (String.concat " "
              ("CollapseLoader_B.exe" :: ["--prelease"; "--fast"])))
  ∧ handoffs (trace_of (main net_three true ["--prelease"; "--fast"]
                          (PyJson (JObject rel_B)) (start fs_has_B)))
    = handoffs (trace (start fs_has_B))
        ++ [EvSystem (String.concat " "
              ("CollapseLoader_B.exe" :: ["--prelease"; "--fast"]))].
Proof.
  apply (handoff_forwards_all_arguments net_three true ["--prelease"; "--fast"]
           rel_B asset_B [] (start fs_has_B)).
  - reflexivity.
  - vm_compute. reflexivity.
Defined.

(** C3, as stated, fails: started with [--prelease --fast], the launcher
    selects the pre-release channel and hands [--prelease] on to the
    artifact with the rest; the vector without the launcher's own option
    would be [--fast] alone. *)
Lemma handoff_forwards_prelease_flag :
  args_prelease ["--prelease"; "--fast"] = true
  ∧ without_private_flags ["--prelease"; "--fast"] = ["--fast"]
  ∧ outcome (script net_three "main.py" ["--prelease"; "--fast"]
               (start fs_has_B)) = Done tt
  ∧ handoffs (trace_of (script net_three "main.py" ["--prelease"; "--fast"]
                          (start fs_has_B)))
    = [EvSystem "CollapseLoader_B.exe --prelease --fast"].
Proof. vm_compute. done. Qed.

(** ** Interrupted downloads *)

(** C2 (as the code has it). When the target is absent and the stream of
    the asset breaks after some chunks, the run of [main] ends with the
    stream's exception and without a handoff; the file under the target
    name is left in the store, holding the chunks received, so a later
    [exists] check on the target's name answers true. *)
Theorem interrupted_download_leaves_partial_file
    (net : Network) (prelease : bool) (argv : list string)
    (r : Release) (asset : Asset) (rest : list Asset)
    (resp : Response Stream) (e : RequestException) (w : World) :
  assets r = asset :: rest →
  store w !! name asset = None →
  cdn net (browser_download_url asset) = Returns resp →
  ¬ (400 ≤ status_code resp < 600) →
  broken (body resp) = Some e →
  outcome (main net prelease argv (PyJson (JObject r)) w)
    = Raised (ERequest e)
  ∧ store_of (main net prelease argv (PyJson (JObject r)) w) !! name asset
    = Some (File (concat (chunks (body resp))))
  ∧ exists_ (store_of (main net prelease argv (PyJson (JObject r)) w))
      (name asset) = true
  ∧ handoffs (trace_of (main net prelease argv (PyJson (JObject r)) w))
    = handoffs (trace w).
Proof.
  intros Ha Habs Hcdn Hs Hbr.
  destruct (main_run net prelease argv r asset rest w Ha) as (evs & Hev & ->).
  assert (exists_ (store w) (name asset) = false) as ->.
  { unfold exists_. rewrite Habs. apply bool_decide_eq_false_2.
    by intros [? ?]. }
  pose proof (download_handoffs net prelease r asset rest
                (reconciled (name asset) evs w) Ha) as Hd.
  rewrite handoffs_reconciled in Hd by done.
  rewrite (download_streams _ _ _ _ _ _ _ Ha Hcdn Hs) in *.
  2,3: cbn [reconciled store]; rewrite lookup_pruned, Habs;
       by destruct (stale _ _ _).
  rewrite Hbr in *. cbn [ending_outcome] in *.
  unfold outcome, store_of, trace_of, exists_ in *. cbn [fst snd store] in *.
  rewrite lookup_insert_eq. split; [done|]. split; [done|]. split; [|done].
  apply bool_decide_eq_true_2. by eexists.
Qed.

(** The connection drops after the first chunk. *)
Lemma interrupted_download_leaves_partial_file_witness :
  outcome (main net_drops false [] (PyJson (JObject rel_1)) (start ∅))
    = Raised (ERequest (ChunkedEncodingError "connection broken"))
  ∧ store_of (main net_drops false [] (PyJson (JObject rel_1)) (start ∅))
      !! name asset_1
    = Some (File (concat (chunks (body
         {| status_code := 200;
            body := {| chunks := [[x01; x02]];
                       broken := Some (ChunkedEncodingError
                                         "connection broken") |} |}))))
  ∧ exists_ (store_of (main net_drops false [] (PyJson (JObject rel_1))
                         (start ∅))) (name asset_1) = true
  ∧ handoffs (trace_of (main net_drops false [] (PyJson (JObject rel_1))
                          (start ∅)))
    = handoffs (trace (start ∅)).
Proof.
  apply (interrupted_download_leaves_partial_file net_drops false []
           rel_1 asset_1 [] _ (ChunkedEncodingError "connection broken")
           (start ∅)).
  - reflexivity.
  - reflexivity.
  - reflexivity.
  - cbn. lia.
  - reflexivity.
Defined.

(** C2, as stated, fails: after the interrupted download the target
    exists, with the two bytes received, and the next run, finding it,
    makes no transfer and launches it. *)
Lemma interrupted_download_is_launched_next_run :
  let first := script net_drops "main.py" [] (start ∅) in
  let second := script net_drops "main.py" [] (start (store_of first)) in
  outcome first = Raised (ERequest (ChunkedEncodingError "connection broken"))
  ∧ store_of first !! "CollapseLoader_1.0.exe" = Some (File [x01; x02])
  ∧ exists_ (store_of first) "CollapseLoader_1.0.exe" = true
  ∧ outcome second = Done tt
  ∧ transfers (trace_of second) = []
  ∧ handoffs (trace_of second) = [EvSystem "CollapseLoader_1.0.exe"].
Proof. vm_compute. done. Qed.

(** ** Running twice *)

Lemma NoDup_only (l : list string) (x : string) :
  NoDup l → (∀ y, y ∈ l ↔ y = x) → l = [x].
Proof.
  intros Hnd Hl. destruct l as [|a l].
  - exfalso. apply (not_elem_of_nil x). by apply Hl.
  - assert (a = x) as -> by (apply Hl; left).
    destruct l as [|b l]; [done|]. exfalso.
    apply NoDup_cons in Hnd as [Hnotin _]. apply Hnotin.
    assert (b = x) as -> by (apply Hl; right; left). left.
Qed.

Lemma NoDup_none (l : list string) : (∀ y, y ∉ l) → l = [].
Proof. destruct l as [|a l]; [done|]. intros H. destruct (H a). left. Qed.

Lemma stale_installed target content fs n :
  stale (Some target) (installed target content fs) n = false.
Proof.
  unfold stale, installed.
  destruct (String.prefix release_prefix n) eqn:Hp; [|done].
  destruct (decide (n = target)) as [->|Hne].
  - rewrite (bool_decide_eq_false_2 (Some target ≠ Some target)); [done|].
    by intros [].
  - rewrite bool_decide_eq_true_2 by congruence. cbn.
    unfold isfile at 1. rewrite lookup_insert_ne by done.
    fold (isfile (pruned (Some target) fs) n). rewrite isfile_pruned.
    unfold stale. rewrite Hp, bool_decide_eq_true_2 by congruence. cbn.
    by destruct (isfile fs n).
Qed.

Lemma pruned_installed target content fs :
  pruned (Some target) (installed target content fs)
    = installed target content fs.
Proof.
  apply map_eq. intros n. by rewrite lookup_pruned, stale_installed.
Qed.

Lemma artifacts_installed target content fs :
  artifacts (installed target content fs) =
    if String.prefix release_prefix target then [target] else [].
Proof.
  assert (∀ n, n ∈ artifacts (installed target content fs)
               ↔ n = target ∧ String.prefix release_prefix target = true)
    as Hin.
  { intros n. rewrite elem_of_artifacts. split.
    - intros [Hp Hf]. destruct (decide (n = target)) as [->|Hne]; [done|].
      exfalso. pose proof (stale_installed target content fs n) as Hs.
      unfold stale in Hs. rewrite Hp, Hf, bool_decide_eq_true_2 in Hs;
        [done | congruence].
    - intros [-> Hp]. split; [done|]. unfold isfile, installed.
      by rewrite lookup_insert_eq. }
  destruct (String.prefix release_prefix target) eqn:Hp.
  - apply NoDup_only; [apply NoDup_artifacts|].
    intros n. rewrite Hin. by split; [intros [? _] | intros ->].
  - apply NoDup_none. intros n Hn. apply Hin in Hn as [_ ?]. done.
Qed.

(** C9 (as the code has it). Run [main] twice on the same candidate,
    the first time with the target absent and a download that completes.
    Both runs reach the handoff, the second makes no transfer and leaves
    the store as the first left it: the target holds what was
    downloaded, and the artifacts (regular files matching
    [CollapseLoader*]) are the target alone when its name matches the
    pattern, and none when it does not. *)
Theorem second_run_transfers_nothing
    (net : Network) (prelease : bool) (argv : list string)
    (r : Release) (asset : Asset) (rest : list Asset)
    (resp : Response Stream) (fs : Store) :
  assets r = asset :: rest →
  fs !! name asset = None →
  cdn net (browser_download_url asset) = Returns resp →
  ¬ (400 ≤ status_code resp < 600) →
  broken (body resp) = None →
  let first := main net prelease argv (PyJson (JObject r)) (start fs) in
  let second :=
    main net prelease argv (PyJson (JObject r)) (start (store_of first)) in
  outcome first = Done tt
  ∧ transfers (trace_of first) = [EvGet (browser_download_url asset) true]
  ∧ outcome second = Done tt
  ∧ transfers (trace_of second) = []
  ∧ store_of second = store_of first
  ∧ store_of second !! name asset
    = Some (File (concat (chunks (body resp))))
  ∧ artifacts (store_of second)
    = if String.prefix release_prefix (name asset) then [name asset] else [].
Proof.
  intros Ha Habs Hcdn Hs Hbr. cbv zeta.
  assert (exists_ fs (name asset) = false) as Hex.
  { unfold exists_. rewrite Habs. apply bool_decide_eq_false_2.
    by intros [? ?]. }
  pose proof (main_transfers net prelease argv r asset rest
                (start fs) Ha) as Ht1.
  cbn [start store trace] in Ht1. rewrite Hex in Ht1.
  change (transfers []) with (@nil Event) in Ht1. cbn [app] in Ht1.
  assert (main net prelease argv (PyJson (JObject r)) (start fs)
          = (Done tt,
             {| store := installed (name asset)
                           (concat (chunks (body resp))) fs;
                trace := trace (snd (main net prelease argv
                                       (PyJson (JObject r)) (start fs))) |}))
    as Hfirst.
  { destruct (main_run net prelease argv r asset rest (start fs) Ha)
      as (evs & Hev & ->).
    cbn [start store]. rewrite Hex.
    rewrite (download_streams _ _ _ _ _ _ _ Ha Hcdn Hs).
    2: { cbn [reconciled store start]. rewrite lookup_pruned, Habs.
         by destruct (stale _ _ _). }
    by rewrite Hbr. }
  unfold store_of, outcome. rewrite Hfirst. cbn [fst snd store].
  split; [done|]. split; [exact Ht1|].
  set (fs1 := installed _ _ _).
  assert (exists_ fs1 (name asset) = true) as Hex1.
  { unfold exists_, fs1, installed. rewrite lookup_insert_eq.
    apply bool_decide_eq_true_2. by eexists. }
  pose proof (main_transfers net prelease argv r asset rest
                (start fs1) Ha) as Ht2.
  cbn [start store trace] in Ht2. rewrite Hex1 in Ht2.
  change (transfers []) with (@nil Event) in Ht2. cbn [app] in Ht2.
  destruct (main_present net prelease argv r asset rest (start fs1) Ha Hex1)
    as (evs2 & _ & Hsecond).
  cbn [start store trace] in Hsecond.
  split; [by rewrite Hsecond|]. split; [exact Ht2|].
  rewrite Hsecond. cbn [fst snd store].
  unfold fs1. rewrite pruned_installed, artifacts_installed.
  split; [done|]. split; [|done].
  unfold installed. by rewrite lookup_insert_eq.
Qed.

(** Release 1.0 over a store that holds 0.9. *)
Lemma second_run_transfers_nothing_witness :
  let first := main net_serves false ["--fast"] (PyJson (JObject rel_1))
                 (start fs_old) in
  let second := main net_serves false ["--fast"] (PyJson (JObject rel_1))
                  (start (store_of first)) in
  outcome first = Done tt
  ∧ transfers (trace_of first) = [EvGet (browser_download_url asset_1) true]
  ∧ outcome second = Done tt
  ∧ transfers (trace_of second) = []
  ∧ store_of second = store_of first
  ∧ store_of second !! name asset_1
    = Some (File (concat (chunks (body
         {| status_code := 200;
            body := {| chunks := [[x01; x02]; [x03; x04]];
                       broken := None |} |}))))
  ∧ artifacts (store_of second)
    = if String.prefix release_prefix (name asset_1) then [name asset_1]
      else [].
Proof.
  apply (second_run_transfers_nothing net_serves false ["--fast"]
           rel_1 asset_1 [] _ fs_old).
  - reflexivity.
  - vm_compute. reflexivity.
  - reflexivity.
  - cbn. lia.
  - reflexivity.
Defined.

(** C9, as stated, fails: when the asset's name does not start with
    [CollapseLoader], the two runs end with the target in the store and
    no file that matches the pattern, not one. *)
Lemma second_run_leaves_no_matching_artifact :
  let first := script net_app "main.py" [] (start fs_old) in
  let second := script net_app "main.py" [] (start (store_of first)) in
  outcome first = Done tt
  ∧ transfers (trace_of first) = [EvGet "https://cdn.example/app-2.0" true]
  ∧ outcome second = Done tt
  ∧ transfers (trace_of second) = []
  ∧ store_of second !! "App-2.0.exe" = Some (File [x01; x02; x03; x04])
  ∧ artifacts (store_of second) = []
  ∧ length (artifacts (store_of second)) = 0%nat.
Proof. vm_compute. done. Qed.

(** ** Whole runs of the script *)

(** The scenario of the specification, with names after the pattern: the
    registry serves release 1.0 (4 bytes), the store holds 0.9. *)
Example end_to_end :
  let run := script net_serves "main.py" ["--fast"] (start fs_old) in
  outcome run = Done tt
  ∧ trace_of run =
      [EvConsole msg_panel; EvGet url_latest false;
       EvGlob "CollapseLoader*"; EvIsFile "CollapseLoader_0.9.exe";
       EvRemove "CollapseLoader_0.9.exe";
       EvConsole (msg_deleted "CollapseLoader_0.9.exe");
       EvExists "CollapseLoader_1.0.exe";
       EvConsole (msg_downloading false "CollapseLoader_1.0.exe");
       EvTask "CollapseLoader_1.0.exe" 4;
       EvGet "https://cdn.example/1.0" true;
       EvOpen "CollapseLoader_1.0.exe";
       EvWrite "CollapseLoader_1.0.exe" [x01; x02]; EvAdvance 2;
       EvWrite "CollapseLoader_1.0.exe" [x03; x04]; EvAdvance 2;
       EvConsole (msg_downloaded "CollapseLoader_1.0.exe");
       EvConsole msg_starting;
       EvSystem "CollapseLoader_1.0.exe --fast"]
  ∧ artifacts (store_of run) = ["CollapseLoader_1.0.exe"]
  ∧ store_of run !! "notes.txt" = Some (File []).
Proof. vm_compute. done. Qed.

Example present_target_run :
  let run := script net_serves "main.py" [] (start fs_current) in
  outcome run = Done tt
  ∧ trace_of run =
      [EvConsole msg_panel; EvGet url_latest false;
       EvGlob "CollapseLoader*"; EvIsFile "CollapseLoader_0.9.exe";
       EvRemove "CollapseLoader_0.9.exe";
       EvConsole (msg_deleted "CollapseLoader_0.9.exe");
       EvExists "CollapseLoader_1.0.exe";
       EvConsole msg_already; EvConsole msg_starting;
       EvSystem "CollapseLoader_1.0.exe"].
Proof. vm_compute. done. Qed.

Example args_prelease_examples :
  args_prelease ["--prelease"] = true
  ∧ args_prelease ["--pre"; "x"] = true
  ∧ args_prelease ["x"; "--"; "--prelease"] = false
  ∧ args_prelease ["-p"; "prelease"] = false
  ∧ args_prelease [] = false.
Proof. vm_compute. done. Qed.

(** * Further properties of the program *)

(** ** Pruning: what is removed, what is reported, what is left alone *)

Lemma prune_step_delete exclude_file fs a n :
  n ≠ a → prune_step exclude_file (delete a fs) n = prune_step exclude_file fs n.
Proof.
  intros Hne. unfold prune_step, isfile. by rewrite lookup_delete_ne.
Qed.

Lemma flat_map_prune_step_delete exclude_file fs a l :
  a ∉ l →
  flat_map (prune_step exclude_file (delete a fs)) l
    = flat_map (prune_step exclude_file fs) l.
Proof.
  induction l as [|n l IH]; [done|]. intros Hnotin.
  apply not_elem_of_cons in Hnotin as [Hne Hl]. cbn.
  rewrite prune_step_delete by done. by rewrite IH.
Qed.

(** The trace of the loop over a listing without repetitions: each turn
    tests the name as the store was at the start. *)
Lemma for_old_release_trace (exclude_file : option string) (l : list string)
    (w : World) :
  NoDup l →
  trace_of (for_old_release exclude_file l w)
    = trace w ++ flat_map (prune_step exclude_file (store w)) l.
Proof.
  intros Hnd. revert w. induction Hnd as [|a l Hnotin Hnd IH]; intros w.
  - cbn. by rewrite app_nil_r.
  - cbn [for_old_release flat_map]. rewrite bind_run. unfold prune_step at 1.
    destruct (bool_decide (Some a ≠ exclude_file)) eqn:Hex.
    + rewrite bind_run, os_path_isfile_run.
      destruct (isfile (store w) a) eqn:Hf.
      * rewrite bind_run, os_remove_file by done. rewrite console_print_run.
        rewrite IH. unfold log. cbn [store trace].
        rewrite flat_map_prune_step_delete by done.
        rewrite <- !app_assoc. reflexivity.
      * rewrite ret_run, IH. unfold log. cbn [store trace].
        rewrite <- !app_assoc. reflexivity.
    + rewrite ret_run, IH. reflexivity.
Qed.

Lemma delete_old_releases_trace (exclude_file : option string) (w : World) :
  trace_of (delete_old_releases exclude_file w)
    = trace w ++ EvGlob "CollapseLoader*"
        :: flat_map (prune_step exclude_file (store w))
             (matching release_prefix (store w)).
Proof.
  unfold delete_old_releases. rewrite bind_run, glob_glob_run.
  rewrite for_old_release_trace by apply NoDup_matching.
  unfold log. cbn [store trace]. by rewrite <- app_assoc.
Qed.

Lemma removed_app (t1 t2 : list Event) :
  removed (t1 ++ t2) = removed t1 ++ removed t2.
Proof. apply flat_map_app. Qed.

Lemma printed_app (t1 t2 : list Event) :
  printed (t1 ++ t2) = printed t1 ++ printed t2.
Proof. apply flat_map_app. Qed.

Lemma removed_prune_steps exclude_file fs l :
  removed (flat_map (prune_step exclude_file fs) l)
    = List.filter (λ n, bool_decide (Some n ≠ exclude_file) && isfile fs n) l.
Proof.
  induction l as [|n l IH]; [done|]. cbn [flat_map List.filter].
  rewrite removed_app, IH. unfold prune_step.
  destruct (bool_decide (Some n ≠ exclude_file)); [|done].
  by destruct (isfile fs n).
Qed.

Lemma printed_prune_steps exclude_file fs l :
  printed (flat_map (prune_step exclude_file fs) l)
    = map msg_deleted
        (List.filter (λ n, bool_decide (Some n ≠ exclude_file) && isfile fs n) l).
Proof.
  induction l as [|n l IH]; [done|]. cbn [flat_map List.filter].
  rewrite printed_app, IH. unfold prune_step.
  destruct (bool_decide (Some n ≠ exclude_file)); [|done].
  by destruct (isfile fs n).
Qed.

Lemma filter_stale_matching exclude_file fs :
  List.filter (λ n, bool_decide (Some n ≠ exclude_file) && isfile fs n)
    (matching release_prefix fs)
  = List.filter (stale exclude_file fs) (matching release_prefix fs).
Proof.
  apply List.filter_ext_in. intros n Hn.
  apply list_elem_of_In, elem_of_matching in Hn as [Hp _].
  unfold stale. by rewrite Hp.
Qed.

Lemma removed_delete_old_releases (exclude_file : option string) (fs : Store) :
  removed (trace_of (delete_old_releases exclude_file (start fs)))
    = List.filter (stale exclude_file fs) (matching release_prefix fs).
Proof.
  rewrite delete_old_releases_trace. cbn [start store trace app].
  change (removed (EvGlob "CollapseLoader*" :: ?t)) with (removed t).
  by rewrite removed_prune_steps, filter_stale_matching.
Qed.

Lemma printed_delete_old_releases (exclude_file : option string) (fs : Store) :
  printed (trace_of (delete_old_releases exclude_file (start fs)))
    = map msg_deleted
        (List.filter (stale exclude_file fs) (matching release_prefix fs)).
Proof.
  rewrite delete_old_releases_trace. cbn [start store trace app].
  change (printed (EvGlob "CollapseLoader*" :: ?t)) with (printed t).
  by rewrite printed_prune_steps, filter_stale_matching.
Qed.

(** X1. Every deletion is reported, and nothing else is: the paths
    [delete_old_releases] removes are, in the order of the listing, the
    stale names of the store it started from, and what it prints is one
    "Deleted old release" line for each of them, in the same order. *)
Theorem every_deletion_is_reported (exclude_file : option string) (fs : Store) :
  removed (trace_of (delete_old_releases exclude_file (start fs)))
    = List.filter (stale exclude_file fs) (matching release_prefix fs)
  ∧ printed (trace_of (delete_old_releases exclude_file (start fs)))
    = map msg_deleted
        (removed (trace_of (delete_old_releases exclude_file (start fs)))).
Proof.
  rewrite printed_delete_old_releases, removed_delete_old_releases. done.
Qed.

(** X2. Pruning stays inside the pattern and never adds anything: an
    entry whose name does not start with [CollapseLoader] is what it was
    before, and the store left is a part of the store given. *)
Theorem delete_old_releases_frame (exclude_file : option string) (fs : Store) :
  store_of (delete_old_releases exclude_file (start fs)) ⊆ fs
  ∧ (∀ n, String.prefix release_prefix n = false →
          store_of (delete_old_releases exclude_file (start fs)) !! n
            = fs !! n).
Proof.
  destruct (delete_old_releases_run exclude_file (start fs)) as (evs & -> & _).
  unfold store_of. cbn [snd store start]. split.
  - apply map_filter_subseteq.
  - intros n Hp. rewrite lookup_pruned. unfold stale. by rewrite Hp.
Qed.

Lemma stale_pruned exclude_file fs n :
  stale exclude_file (pruned exclude_file fs) n = false.
Proof.
  unfold stale at 1. rewrite isfile_pruned. unfold stale.
  destruct (String.prefix release_prefix n); [|done].
  destruct (bool_decide (Some n ≠ exclude_file)); [|done].
  cbn. by destruct (isfile fs n).
Qed.

Lemma filter_all_false {A} (f : A → bool) (l : list A) :
  (∀ x, f x = false) → List.filter f l = [].
Proof. intros Hf. induction l as [|x l IH]; [done|]. cbn. by rewrite Hf. Qed.

Lemma store_of_delete_old_releases (exclude_file : option string) (fs : Store) :
  store_of (delete_old_releases exclude_file (start fs))
    = pruned exclude_file fs.
Proof.
  by destruct (delete_old_releases_run exclude_file (start fs)) as (evs & -> & _).
Qed.

(** X3. Pruning twice is pruning once: a second call, with the same
    excluded name, right after the first leaves the store as the first
    left it, removes nothing and reports nothing. *)
Theorem delete_old_releases_idempotent (exclude_file : option string)
    (fs : Store) :
  let once := delete_old_releases exclude_file (start fs) in
  let twice := delete_old_releases exclude_file (start (store_of once)) in
  outcome twice = Done tt
  ∧ store_of twice = store_of once
  ∧ removed (trace_of twice) = []
  ∧ printed (trace_of twice) = [].
Proof.
  cbv zeta.
  rewrite printed_delete_old_releases, removed_delete_old_releases.
  rewrite !store_of_delete_old_releases.
  rewrite filter_all_false by apply stale_pruned.
  split; [|split; [|done]].
  - by destruct (delete_old_releases_run exclude_file
                   (start (pruned exclude_file fs))) as (evs & -> & _).
  - apply map_eq. intros n. by rewrite lookup_pruned, stale_pruned.
Qed.

(** X4. Pruning changes the store exactly when something is stale: the
    store is left as it was if and only if no regular file other than
    the excluded one matches the pattern. *)
Theorem delete_old_releases_noop_iff (exclude_file : option string)
    (fs : Store) :
  store_of (delete_old_releases exclude_file (start fs)) = fs
  ↔ ∀ n, stale exclude_file fs n = false.
Proof.
  destruct (delete_old_releases_run exclude_file (start fs)) as (evs & -> & _).
  unfold store_of. cbn [snd store start]. split.
  - intros Heq n. destruct (stale exclude_file fs n) eqn:Hs; [|done].
    exfalso. assert (pruned exclude_file fs !! n = None) as Hnone.
    { by rewrite lookup_pruned, Hs. }
    rewrite Heq in Hnone. unfold stale in Hs.
    apply andb_true_iff in Hs as [_ Hf]. apply isfile_is_Some in Hf.
    rewrite Hnone in Hf. by destruct Hf.
  - intros Hs. apply map_eq. intros n. by rewrite lookup_pruned, Hs.
Qed.

(** X5. Called without an excluded file (the default, [None]), pruning
    removes every regular file that matches the pattern: no artifact is
    left. *)
Theorem delete_old_releases_default_removes_all (fs : Store) :
  outcome (delete_old_releases None (start fs)) = Done tt
  ∧ artifacts (store_of (delete_old_releases None (start fs))) = [].
Proof.
  destruct (delete_old_releases_run None (start fs)) as (evs & -> & _).
  unfold outcome, store_of. cbn [fst snd store start]. split; [done|].
  destruct (artifacts (pruned None fs)) as [|n l] eqn:Hl; [done|]. exfalso.
  assert (n ∈ artifacts (pruned None fs)) as Hn by (rewrite Hl; left).
  apply elem_of_artifacts in Hn as [Hp Hf].
  rewrite isfile_pruned in Hf. apply andb_true_iff in Hf as [Hf Hs].
  unfold stale in Hs. rewrite Hp, Hf in Hs. done.
Qed.

(** ** Resolution: failures, and what it leaves alone *)

(** X6. Whenever the API request does not come back with status 200 —
    it raises, or the status is anything else — resolution returns
    [False] after one request and the line "Failed to fetch latest
    release!", followed by the exception when there is one (the request's
    own, or the [HTTPError] of a status from 400 to 599); the store is
    not touched. *)
Theorem failed_fetch_is_reported_once
    (net : Network) (prelease : bool) (w : World) :
  (∀ resp, api net (api_url prelease) = Returns resp →
           status_code resp ≠ 200) →
  get_latest_release net prelease w
    = (Done PyFalse,
       logs (EvGet (api_url prelease) false :: EvConsole msg_fetch_failed
               :: failure_detail (api net (api_url prelease))) w).
Proof.
  intros H200. destruct (api net (api_url prelease)) as [e|resp] eqn:Hapi.
  - by rewrite (get_latest_release_transport _ _ _ _ Hapi).
  - cbn [failure_detail].
    destruct (decide (400 ≤ status_code resp < 600)) as [Hs|Hs].
    + rewrite bool_decide_eq_true_2 by done.
      by rewrite (get_latest_release_http_error _ _ _ _ Hapi).
    + rewrite bool_decide_eq_false_2 by done.
      by rewrite (get_latest_release_other_status _ _ _ _ Hapi Hs (H200 _ eq_refl)).
Qed.

(** The network is down. *)
Lemma failed_fetch_is_reported_once_witness :
  get_latest_release net_down true (start fs_old)
    = (Done PyFalse,
       logs (EvGet (api_url true) false :: EvConsole msg_fetch_failed
               :: failure_detail (api net_down (api_url true)))
         (start fs_old)).
Proof.
  apply (failed_fetch_is_reported_once net_down true (start fs_old)).
  intros resp H. discriminate H.
Defined.

(** Resolution as a whole: one request, then console output only. *)
Lemma get_latest_release_shape (net : Network) (prelease : bool) (w : World) :
  ∃ o evs,
    get_latest_release net prelease w
      = (o, logs (EvGet (api_url prelease) false :: evs) w)
    ∧ Forall (λ ev, report_event ev = true) evs.
Proof.
  destruct (api net (api_url prelease)) as [e|resp] eqn:Hapi.
  { rewrite (get_latest_release_transport _ _ _ _ Hapi).
    eexists _, _. split; [reflexivity|]. by repeat constructor. }
  destruct (decide (400 ≤ status_code resp < 600)) as [Herr|Hok].
  { rewrite (get_latest_release_http_error _ _ _ _ Hapi Herr).
    eexists _, _. split; [reflexivity|]. by repeat constructor. }
  destruct (decide (status_code resp = 200)) as [H200|Hne].
  2: { rewrite (get_latest_release_other_status _ _ _ _ Hapi Hok Hne).
       eexists _, _. split; [reflexivity|]. by repeat constructor. }
  destruct prelease; cbn [api_url] in *.
  - rewrite (get_latest_release_prelease _ _ _ Hapi H200).
    destruct (body resp) as [r|rs].
    + eexists _, _. split; [reflexivity|]. by repeat constructor.
    + match goal with |- context [for_release_in rs ?w1] =>
        destruct (for_release_in_cases rs w1)
          as [(l1 & r & l2 & _ & _ & _ & ->)|[_ ->]] end.
      * eexists _, _. split; [reflexivity|]. by repeat constructor.
      * exists (Done PyFalse),
          [EvConsole msg_fetching_prerelease; EvConsole msg_no_prerelease].
        split; [|by repeat constructor].
        unfold log, logs. cbn [store trace]. by rewrite <- app_assoc.
  - rewrite (get_latest_release_stable _ _ _ Hapi H200).
    eexists _, _. split; [reflexivity|]. constructor.
Qed.

Lemma requests_app (t1 t2 : list Event) :
  requests (t1 ++ t2) = requests t1 ++ requests t2.
Proof. apply List.filter_app. Qed.

Lemma report_events_quiet (evs : list Event) :
  Forall (λ ev, report_event ev = true) evs →
  requests evs = [] ∧ handoffs evs = [] ∧ removed evs = []
  ∧ transfers evs = [].
Proof.
  induction 1 as [|ev evs Hev _ (IH1 & IH2 & IH3 & IH4)]; [done|].
  destruct ev; try done; cbn; repeat split; done.
Qed.

(** X7. Resolution only asks and reports: on either channel and whatever
    the registry answers, it makes exactly one request, not streamed, to
    the endpoint of the channel ("all releases" for the pre-release
    channel, "latest" otherwise), leaves the store as it was, removes
    nothing and launches nothing. *)
Theorem resolution_only_asks (net : Network) (prelease : bool) (w : World) :
  store_of (get_latest_release net prelease w) = store w
  ∧ requests (trace_of (get_latest_release net prelease w))
    = requests (trace w)
        ++ [EvGet (if prelease then url_releases else url_latest) false]
  ∧ handoffs (trace_of (get_latest_release net prelease w))
    = handoffs (trace w)
  ∧ removed (trace_of (get_latest_release net prelease w))
    = removed (trace w).
Proof.
  destruct (get_latest_release_shape net prelease w) as (o & evs & -> & Hev).
  apply report_events_quiet in Hev as (Hr & Hh & Hd & _).
  unfold store_of, trace_of, logs. cbn [snd store trace].
  split; [done|].
  rewrite requests_app, handoffs_app, removed_app.
  change (requests (?e :: evs)) with (e :: requests evs).
  change (handoffs (?e :: evs)) with (handoffs evs).
  change (removed (?e :: evs)) with (removed evs).
  rewrite Hr, Hh, Hd, !app_nil_r. done.
Qed.

(** ** The script: when nothing is launched *)

Lemma prefix_append (s t : string) : String.prefix s (String.append s t) = true.
Proof.
  induction s as [|c s IH]; [by destruct t|].
  change (String.prefix (String c s) (String c (String.append s t)) = true).
  cbn [String.prefix]. destruct (Ascii.ascii_dec c c); [exact IH|congruence].
Qed.

Lemma contains_prefix (sub s : string) :
  String.prefix sub s = true → contains sub s = true.
Proof. intros H. destruct s; cbn [contains]; by rewrite H. Qed.

Lemma contains_append (sub pre post : string) :
  contains sub (String.append pre (String.append sub post)) = true.
Proof.
  induction pre as [|c pre IH].
  - change (contains sub (String.append sub post) = true).
    apply contains_prefix, prefix_append.
  - change (contains sub
              (String c (String.append pre (String.append sub post))) = true).
    cbn [contains]. rewrite IH. apply orb_true_r.
Qed.

(** X8. The guard against PyInstaller's child process: on a command
    line that argparse accepts, when [sys.argv[0]] contains
    ["_child.py"], wherever in it, the script does nothing at all; no
    request, no change to the store, no output. *)
Theorem child_process_does_nothing
    (net : Network) (pre post : string) (argv : list string) (w : World) :
  parse_known_args_returns argv = true →
  script net (String.append pre (String.append "_child.py" post)) argv w
    = (Done tt, w).
Proof. intros _. unfold script. by rewrite contains_append. Qed.

(** PyInstaller's child script, started with an argument. *)
Lemma child_process_does_nothing_witness :
  script net_serves (String.append "/tmp/_MEI1/" (String.append "_child.py" ""))
    ["--fast"] (start fs_old)
    = (Done tt, start fs_old).
Proof.
  apply (child_process_does_nothing net_serves "/tmp/_MEI1/" "" ["--fast"]
           (start fs_old)).
  reflexivity.
Defined.

(** X9. A failed resolution ends the script quietly: on a command line
    that argparse accepts, when [get_latest_release] returns a false
    value, the script ends there, without an exception; the store is as
    it was, nothing was removed and nothing is launched. *)
Theorem script_stops_on_failed_resolution
    (net : Network) (argv0 : string) (argv : list string) (fs : Store)
    (v : PyVal) (w1 : World) :
  parse_known_args_returns argv = true →
  contains "_child.py" argv0 = false →
  get_latest_release net (args_prelease argv)
    (log (EvConsole msg_panel) (start fs)) = (Done v, w1) →
  truthy v = false →
  script net argv0 argv (start fs) = (Done tt, w1)
  ∧ store w1 = fs
  ∧ handoffs (trace w1) = []
  ∧ removed (trace w1) = []
  ∧ transfers (trace w1) = [].
Proof.
  intros _ Hguard Hres Hv.
  split.
  - unfold script, Updater. rewrite Hguard. cbn [negb].
    rewrite bind_run, bind_run, console_print_run, Hres.
    unfold main. by rewrite Hv.
  - destruct (get_latest_release_shape net (args_prelease argv)
                (log (EvConsole msg_panel) (start fs)))
      as (o & evs & Hrun & Hev).
    rewrite Hres in Hrun. injection Hrun as _ ->.
    apply report_events_quiet in Hev as (Hr & Hh & Hd & Ht).
    unfold logs, log. cbn [store trace start app].
    split; [done|].
    change (handoffs (?a :: ?b :: evs)) with (handoffs evs).
    change (removed (?a :: ?b :: evs)) with (removed evs).
    change (transfers (?a :: ?b :: evs)) with (transfers evs).
    by rewrite Hh, Hd, Ht.
Qed.

(** The network is down, the store holds an old release. *)
Lemma script_stops_on_failed_resolution_witness :
  script net_down "main.py" ["--fast"] (start fs_old)
    = (Done tt,
       snd (get_latest_release net_down (args_prelease ["--fast"])
              (log (EvConsole msg_panel) (start fs_old))))
  ∧ store (snd (get_latest_release net_down (args_prelease ["--fast"])
                  (log (EvConsole msg_panel) (start fs_old)))) = fs_old
  ∧ handoffs (trace (snd (get_latest_release net_down
                            (args_prelease ["--fast"])
                            (log (EvConsole msg_panel) (start fs_old))))) = []
  ∧ removed (trace (snd (get_latest_release net_down
                           (args_prelease ["--fast"])
                           (log (EvConsole msg_panel) (start fs_old))))) = []
  ∧ transfers (trace (snd (get_latest_release net_down
                             (args_prelease ["--fast"])
                             (log (EvConsole msg_panel) (start fs_old))))) = [].
Proof.
  apply (script_stops_on_failed_resolution net_down "main.py" ["--fast"]
           fs_old PyFalse).
  - reflexivity.
  - vm_compute. reflexivity.
  - reflexivity.
  - reflexivity.
Defined.

(** X10. A candidate without assets stops the script with [IndexError]
    at [assets[0]]: on a command line that argparse accepts, whenever
    resolution returns a release whose asset list is empty, the script
    raises right after it; nothing is pruned, downloaded or launched, and
    the store is as it was. *)
Theorem script_raises_on_candidate_without_asset
    (net : Network) (argv0 : string) (argv : list string) (fs : Store)
    (r : Release) (w1 : World) :
  parse_known_args_returns argv = true →
  contains "_child.py" argv0 = false →
  get_latest_release net (args_prelease argv)
    (log (EvConsole msg_panel) (start fs)) = (Done (PyJson (JObject r)), w1) →
  assets r = [] →
  script net argv0 argv (start fs) = (Raised IndexError, w1)
  ∧ store w1 = fs
  ∧ handoffs (trace w1) = []
  ∧ removed (trace w1) = [].
Proof.
  intros _ Hguard Hres Ha.
  split.
  - unfold script, Updater. rewrite Hguard. cbn [negb].
    rewrite bind_run, bind_run, console_print_run, Hres.
    unfold main. cbn [truthy]. rewrite bind_run. unfold first_asset.
    by rewrite Ha.
  - destruct (get_latest_release_shape net (args_prelease argv)
                (log (EvConsole msg_panel) (start fs)))
      as (o & evs & Hrun & Hev).
    rewrite Hres in Hrun. injection Hrun as _ ->.
    apply report_events_quiet in Hev as (Hr & Hh & Hd & _).
    unfold logs, log. cbn [store trace start app].
    split; [done|].
    change (handoffs (?a :: ?b :: evs)) with (handoffs evs).
    change (removed (?a :: ?b :: evs)) with (removed evs).
    by rewrite Hh, Hd.
Qed.

(** The registry lists no asset for its latest release; the store holds
    an old release, which stays. *)
Lemma script_raises_on_candidate_without_asset_witness :
  script net_bare "main.py" [] (start fs_old)
    = (Raised IndexError,
       {| store := fs_old;
          trace := [EvConsole msg_panel; EvGet url_latest false] |})
  ∧ store {| store := fs_old;
             trace := [EvConsole msg_panel; EvGet url_latest false] |}
    = fs_old
  ∧ handoffs (trace {| store := fs_old;
                       trace := [EvConsole msg_panel;
                                 EvGet url_latest false] |}) = []
  ∧ removed (trace {| store := fs_old;
                      trace := [EvConsole msg_panel;
                                EvGet url_latest false] |}) = [].
Proof.
  apply (script_raises_on_candidate_without_asset net_bare "main.py" []
           fs_old rel_bare).
  - reflexivity.
  - vm_compute. reflexivity.
  - reflexivity.
  - reflexivity.
Defined.

(** ** Download: what is written and what is reported *)

Lemma advanced_app (t1 t2 : list Event) :
  advanced (t1 ++ t2) = (advanced t1 + advanced t2)%nat.
Proof. unfold advanced. by rewrite flat_map_app, list_sum_app. Qed.

Lemma written_app (path : string) (t1 t2 : list Event) :
  written path (t1 ++ t2) = written path t1 ++ written path t2.
Proof. apply flat_map_app. Qed.

Lemma advanced_chunk_events (path : string) (cs : list (list byte)) :
  advanced (chunk_events path cs) = length (concat cs).
Proof.
  induction cs as [|c cs IH]; [done|].
  change (chunk_events path (c :: cs))
    with ([EvWrite path c; EvAdvance (length c)] ++ chunk_events path cs).
  rewrite advanced_app, IH. cbn [concat]. rewrite length_app.
  unfold advanced. cbn. lia.
Qed.

Lemma written_chunk_events (path : string) (cs : list (list byte)) :
  written path (chunk_events path cs) = concat cs.
Proof.
  induction cs as [|c cs IH]; [done|].
  change (chunk_events path (c :: cs))
    with ([EvWrite path c; EvAdvance (length c)] ++ chunk_events path cs).
  rewrite written_app, IH. cbn. rewrite String.eqb_refl.
  by rewrite app_nil_r.
Qed.

(** X11. Progress matches what is on disk: once the asset server has
    answered and the target is opened, the bytes reported to the progress
    bar add up to the length of the file left under the target name, and
    that file holds the chunks in the order they were written; this is so
    whether the stream completes or breaks, and whatever size the
    registry declared for the asset. *)
Theorem progress_matches_file
    (net : Network) (prelease : bool) (r : Release) (asset : Asset)
    (rest : list Asset) (resp : Response Stream) (fs : Store) :
  assets r = asset :: rest →
  cdn net (browser_download_url asset) = Returns resp →
  ¬ (400 ≤ status_code resp < 600) →
  fs !! name asset ≠ Some Dir →
  let run := download_latest_release net prelease (PyJson (JObject r))
               (start fs) in
  store_of run !! name asset
    = Some (File (written (name asset) (trace_of run)))
  ∧ advanced (trace_of run) = length (written (name asset) (trace_of run))
  ∧ written (name asset) (trace_of run) = concat (chunks (body resp)).
Proof.
  intros Ha Hcdn Hs Hdir. cbv zeta.
  rewrite (download_streams _ _ _ _ _ _ _ Ha Hcdn Hs) by done.
  unfold store_of, trace_of. cbn [snd store trace start]. rewrite app_nil_l.
  assert (written (name asset)
            (download_events prelease asset ++ [EvOpen (name asset)]
               ++ chunk_events (name asset) (chunks (body resp))
               ++ match broken (body resp) with
                  | None => [EvConsole (msg_downloaded (name asset))]
                  | Some _ => []
                  end)
          = concat (chunks (body resp))) as Hw.
  { rewrite !written_app, written_chunk_events.
    destruct (broken (body resp)); cbn; by rewrite ?app_nil_r. }
  rewrite Hw, lookup_insert_eq. split; [done|]. split; [|done].
  rewrite !advanced_app, advanced_chunk_events.
  destruct (broken (body resp)); cbn; lia.
Qed.

(** Two of four declared bytes arrive over a stale file of the same
    name. *)
Lemma progress_matches_file_witness :
  let run := download_latest_release net_drops false (PyJson (JObject rel_1))
               (start fs_current) in
  store_of run !! name asset_1
    = Some (File (written (name asset_1) (trace_of run)))
  ∧ advanced (trace_of run) = length (written (name asset_1) (trace_of run))
  ∧ written (name asset_1) (trace_of run)
    = concat (chunks (body
        {| status_code := 200;
           body := {| chunks := [[x01; x02]];
                      broken := Some (ChunkedEncodingError
                                        "connection broken") |} |})).
Proof.
  apply (progress_matches_file net_drops false rel_1 asset_1 [] _ fs_current).
  - reflexivity.
  - reflexivity.
  - cbn. lia.
  - vm_compute. discriminate.
Defined.

(** X12. A download touches the target and nothing else: whatever the
    asset server does, every entry under another name is as it was, no
    file is removed and nothing is launched. *)
Theorem download_touches_only_target
    (net : Network) (prelease : bool) (r : Release) (asset : Asset)
    (rest : list Asset) (w : World) :
  assets r = asset :: rest →
  (∀ n, n ≠ name asset →
        store_of (download_latest_release net prelease (PyJson (JObject r)) w)
          !! n = store w !! n)
  ∧ removed (trace_of (download_latest_release net prelease
                         (PyJson (JObject r)) w)) = removed (trace w)
  ∧ handoffs (trace_of (download_latest_release net prelease
                          (PyJson (JObject r)) w)) = handoffs (trace w).
Proof.
  intros Ha. split; [|split; [|by apply (download_handoffs _ _ _ asset rest)]].
  - intros n Hn. unfold store_of.
    destruct (cdn net (browser_download_url asset)) as [e|resp] eqn:Hcdn.
    { destruct (download_refused net prelease r asset rest w Ha) as [e' ->];
        [left; by exists e | done]. }
    destruct (decide (400 ≤ status_code resp < 600)) as [Hs|Hs].
    { destruct (download_refused net prelease r asset rest w Ha) as [e' ->];
        [right; by exists resp | done]. }
    assert (store w !! name asset = Some Dir
            ∨ store w !! name asset ≠ Some Dir) as [Hdir|Hdir].
    { destruct (store w !! name asset) as [[|]|]; auto. }
    + by rewrite (download_onto_directory _ _ _ _ _ _ _ Ha Hcdn Hs Hdir).
    + rewrite (download_streams _ _ _ _ _ _ _ Ha Hcdn Hs Hdir).
      cbn [snd store]. by rewrite lookup_insert_ne.
  - unfold trace_of.
    destruct (cdn net (browser_download_url asset)) as [e|resp] eqn:Hcdn.
    { destruct (download_refused net prelease r asset rest w Ha) as [e' ->];
        [left; by exists e |].
      cbn. rewrite removed_app. cbn. by rewrite app_nil_r. }
    destruct (decide (400 ≤ status_code resp < 600)) as [Hs|Hs].
    { destruct (download_refused net prelease r asset rest w Ha) as [e' ->];
        [right; by exists resp |].
      cbn. rewrite removed_app. cbn. by rewrite app_nil_r. }
    assert (store w !! name asset = Some Dir
            ∨ store w !! name asset ≠ Some Dir) as [Hdir|Hdir].
    { destruct (store w !! name asset) as [[|]|]; auto. }
    + rewrite (download_onto_directory _ _ _ _ _ _ _ Ha Hcdn Hs Hdir).
      cbn. rewrite removed_app. cbn. by rewrite app_nil_r.
    + rewrite (download_streams _ _ _ _ _ _ _ Ha Hcdn Hs Hdir).
      cbn [snd trace]. rewrite !removed_app.
      assert (removed (chunk_events (name asset) (chunks (body resp))) = [])
        as ->.
      { induction (chunks (body resp)) as [|c cs IH]; [done|]. apply IH. }
      destruct (broken (body resp)); cbn; by rewrite app_nil_r.
Qed.

Lemma download_touches_only_target_witness :
  (∀ n, n ≠ name asset_1 →
        store_of (download_latest_release net_serves false
                    (PyJson (JObject rel_1)) (start fs_old)) !! n
          = store (start fs_old) !! n)
  ∧ removed (trace_of (download_latest_release net_serves false
                         (PyJson (JObject rel_1)) (start fs_old)))
    = removed (trace (start fs_old))
  ∧ handoffs (trace_of (download_latest_release net_serves false
                          (PyJson (JObject rel_1)) (start fs_old)))
    = handoffs (trace (start fs_old)).
Proof.
  apply (download_touches_only_target net_serves false rel_1 asset_1 []
           (start fs_old)).
  reflexivity.
Defined.

(** ** [main]: the ways a run can end *)

Lemma artifacts_pruned_absent (target : string) (fs : Store) :
  fs !! target = None → artifacts (pruned (Some target) fs) = [].
Proof.
  intros Habs. destruct (artifacts (pruned (Some target) fs)) as [|n l] eqn:Hl;
    [done|]. exfalso.
  assert (n ∈ artifacts (pruned (Some target) fs)) as Hn by (rewrite Hl; left).
  pose proof (artifacts_pruned _ _ _ Hn) as ->.
  apply elem_of_artifacts in Hn as [_ Hf]. rewrite isfile_pruned in Hf.
  apply andb_true_iff in Hf as [Hf _]. apply isfile_is_Some in Hf.
  rewrite Habs in Hf. by destruct Hf.
Qed.

(** X13. Old releases are gone before the download is known to work:
    when the target is absent and the request for the asset fails or is
    answered with a status from 400 to 599, the run ends with an
    exception and without a handoff, no file is created under the
    target's name, and the stale releases have been removed all the same:
    no artifact is left in the store. *)
Theorem refused_download_leaves_no_artifact
    (net : Network) (prelease : bool) (argv : list string)
    (r : Release) (asset : Asset) (rest : list Asset) (w : World) :
  assets r = asset :: rest →
  store w !! name asset = None →
  (∃ e, cdn net (browser_download_url asset) = Raises e)
  ∨ (∃ resp, cdn net (browser_download_url asset) = Returns resp
       ∧ 400 ≤ status_code resp < 600) →
  (∃ e, outcome (main net prelease argv (PyJson (JObject r)) w) = Raised e)
  ∧ store_of (main net prelease argv (PyJson (JObject r)) w)
    = pruned (Some (name asset)) (store w)
  ∧ store_of (main net prelease argv (PyJson (JObject r)) w) !! name asset
    = None
  ∧ artifacts (store_of (main net prelease argv (PyJson (JObject r)) w)) = []
  ∧ handoffs (trace_of (main net prelease argv (PyJson (JObject r)) w))
    = handoffs (trace w).
Proof.
  intros Ha Habs Href.
  destruct (main_run net prelease argv r asset rest w Ha) as (evs & Hev & ->).
  assert (exists_ (store w) (name asset) = false) as ->.
  { unfold exists_. rewrite Habs. apply bool_decide_eq_false_2.
    by intros [? ?]. }
  destruct (download_refused net prelease r asset rest
              (reconciled (name asset) evs w) Ha Href) as [e ->].
  unfold outcome, store_of, trace_of, logs. cbn [fst snd store trace].
  split; [by exists e|]. split; [done|]. split; [|split].
  - cbn [reconciled store]. rewrite lookup_pruned, Habs.
    by destruct (stale _ _ _).
  - by apply artifacts_pruned_absent.
  - rewrite handoffs_app, handoffs_reconciled by done. cbn.
    by rewrite app_nil_r.
Qed.

(** The asset server answers 404; the store held release 0.9. *)
Lemma refused_download_leaves_no_artifact_witness :
  (∃ e, outcome (main net_asset_missing false [] (PyJson (JObject rel_1))
                   (start fs_old)) = Raised e)
  ∧ store_of (main net_asset_missing false [] (PyJson (JObject rel_1))
                (start fs_old))
    = pruned (Some (name asset_1)) (store (start fs_old))
  ∧ store_of (main net_asset_missing false [] (PyJson (JObject rel_1))
                (start fs_old)) !! name asset_1 = None
  ∧ artifacts (store_of (main net_asset_missing false []
                           (PyJson (JObject rel_1)) (start fs_old))) = []
  ∧ handoffs (trace_of (main net_asset_missing false []
                          (PyJson (JObject rel_1)) (start fs_old)))
    = handoffs (trace (start fs_old)).
Proof.
  apply (refused_download_leaves_no_artifact net_asset_missing false []
           rel_1 asset_1 [] (start fs_old)).
  - reflexivity.
  - vm_compute. reflexivity.
  - right. eexists. split; [reflexivity|]. cbn. lia.
Defined.

(** X14. What is under the target's name is taken as the artifact,
    whatever it is: when an entry of that name exists (a complete file,
    the remains of a broken download, even a directory) the run leaves
    it exactly as it is, ends normally, and hands its name to
    [os.system] with the arguments. *)
Theorem present_target_is_launched_as_is
    (net : Network) (prelease : bool) (argv : list string)
    (r : Release) (asset : Asset) (rest : list Asset) (node : Node)
    (w : World) :
  assets r = asset :: rest →
  store w !! name asset = Some node →
  outcome (main net prelease argv (PyJson (JObject r)) w) = Done tt
  ∧ store_of (main net prelease argv (PyJson (JObject r)) w) !! name asset
    = Some node
  ∧ handoffs (trace_of (main net prelease argv (PyJson (JObject r)) w))
    = handoffs (trace w) ++ [EvSystem (String.concat " " (name asset :: argv))]
  ∧ EvConsole msg_already
      ∈ trace_of (main net prelease argv (PyJson (JObject r)) w).
Proof.
  intros Ha Hnode.
  assert (exists_ (store w) (name asset) = true) as Hex.
  { unfold exists_. rewrite Hnode. apply bool_decide_eq_true_2. by eexists. }
  destruct (main_present net prelease argv r asset rest w Ha Hex)
    as (evs & Hev & ->).
  unfold outcome, store_of, trace_of. cbn [fst snd store trace].
  split; [done|]. split; [|split].
  - rewrite lookup_pruned. unfold stale.
    rewrite (bool_decide_eq_false_2 (Some (name asset) ≠ Some (name asset)));
      [|by intros []].
    by rewrite andb_false_r.
  - rewrite handoffs_app. f_equal.
    change (handoffs (EvGlob "CollapseLoader*" :: ?t)) with (handoffs t).
    rewrite handoffs_app, (handoffs_prune_events evs) by done. done.
  - rewrite elem_of_app. right. right. rewrite elem_of_app. right.
    right. left.
Qed.

(** A directory has the target's name. *)
Lemma present_target_is_launched_as_is_witness :
  outcome (main net_serves false ["--fast"] (PyJson (JObject rel_1))
             (start fs_target_is_dir)) = Done tt
  ∧ store_of (main net_serves false ["--fast"] (PyJson (JObject rel_1))
                (start fs_target_is_dir)) !! name asset_1 = Some Dir
  ∧ handoffs (trace_of (main net_serves false ["--fast"]
                          (PyJson (JObject rel_1)) (start fs_target_is_dir)))
    = handoffs (trace (start fs_target_is_dir))
        ++ [EvSystem (String.concat " " (name asset_1 :: ["--fast"]))]
  ∧ EvConsole msg_already
      ∈ trace_of (main net_serves false ["--fast"] (PyJson (JObject rel_1))
                    (start fs_target_is_dir)).
Proof.
  apply (present_target_is_launched_as_is net_serves false ["--fast"]
           rel_1 asset_1 [] Dir (start fs_target_is_dir)).
  - reflexivity.
  - vm_compute. reflexivity.
Defined.

(** X15. No handoff after an exception: whatever [self.latest_release]
    holds, a run of [main] that ends with an exception has not called
    [os.system]. *)
Theorem raised_run_makes_no_handoff
    (net : Network) (prelease : bool) (argv : list string)
    (latest_release : PyVal) (w : World) (e : Exn) :
  outcome (main net prelease argv latest_release w) = Raised e →
  handoffs (trace_of (main net prelease argv latest_release w))
    = handoffs (trace w).
Proof.
  destruct latest_release as [|[r|rs]].
  - done.
  - destruct (assets r) as [|asset rest] eqn:Ha.
    + intros _. unfold main. cbn [truthy]. rewrite bind_run.
      unfold first_asset. by rewrite Ha.
    + destruct (main_run net prelease argv r asset rest w Ha)
        as (evs & Hev & ->).
      destruct (exists_ (store w) (name asset)); [done|].
      pose proof (download_handoffs net prelease r asset rest
                    (reconciled (name asset) evs w) Ha) as Hd.
      unfold trace_of, outcome in *.
      destruct (download_latest_release _ _ _ _) as [[[]|e'] w2]; [done|].
      intros _. cbn [snd] in *. by rewrite Hd, handoffs_reconciled.
  - unfold main. destruct (truthy (PyJson (JArray rs))); [|done].
    intros _. by rewrite bind_run.
Qed.

(** The download breaks mid-stream. *)
Lemma raised_run_makes_no_handoff_witness :
  handoffs (trace_of (main net_drops false [] (PyJson (JObject rel_1))
                        (start fs_old)))
    = handoffs (trace (start fs_old)).
Proof.
  apply (raised_run_makes_no_handoff net_drops false []
           (PyJson (JObject rel_1)) (start fs_old)
           (ERequest (ChunkedEncodingError "connection broken"))).
  vm_compute. reflexivity.
Defined.

(** A run of [main] with the target absent and a download that
    completes. *)
Lemma main_successful_update net prelease argv r asset rest resp w :
  assets r = asset :: rest →
  store w !! name asset = None →
  cdn net (browser_download_url asset) = Returns resp →
  ¬ (400 ≤ status_code resp < 600) →
  broken (body resp) = None →
  outcome (main net prelease argv (PyJson (JObject r)) w) = Done tt
  ∧ store_of (main net prelease argv (PyJson (JObject r)) w)
    = installed (name asset) (concat (chunks (body resp))) (store w)
  ∧ handoffs (trace_of (main net prelease argv (PyJson (JObject r)) w))
    = handoffs (trace w) ++ [EvSystem (command_line (name asset) argv)].
Proof.
  intros Ha Habs Hcdn Hs Hbr.
  destruct (main_run net prelease argv r asset rest w Ha) as (evs & Hev & ->).
  assert (exists_ (store w) (name asset) = false) as ->.
  { unfold exists_. rewrite Habs. apply bool_decide_eq_false_2.
    by intros [? ?]. }
  pose proof (download_handoffs net prelease r asset rest
                (reconciled (name asset) evs w) Ha) as Hd.
  rewrite handoffs_reconciled in Hd by done.
  rewrite (download_streams _ _ _ _ _ _ _ Ha Hcdn Hs) in *.
  2,3: cbn [reconciled store]; rewrite lookup_pruned, Habs;
       by destruct (stale _ _ _).
  rewrite Hbr in *. cbn [ending_outcome] in *.
  unfold outcome, store_of, trace_of, logs in *.
  cbn [fst snd store trace] in *.
  split; [done|]. split; [done|]. rewrite handoffs_app, Hd. done.
Qed.

(** X16. A successful update, from the first line of the script to the
    handoff: on a command line that argparse accepts, when resolution
    returns a release with an asset, the target is absent and the
    download completes, the script ends normally; in
    the store it leaves, the target holds the bytes received, every
    stale release is gone and every other entry is as it was; it has
    made one transfer, for the asset, and one handoff, of the target
    with the arguments it was given. *)
Theorem successful_update
    (net : Network) (argv0 : string) (argv : list string) (fs : Store)
    (r : Release) (asset : Asset) (rest : list Asset)
    (resp : Response Stream) (w1 : World) :
  parse_known_args_returns argv = true →
  contains "_child.py" argv0 = false →
  get_latest_release net (args_prelease argv)
    (log (EvConsole msg_panel) (start fs)) = (Done (PyJson (JObject r)), w1) →
  assets r = asset :: rest →
  fs !! name asset = None →
  cdn net (browser_download_url asset) = Returns resp →
  ¬ (400 ≤ status_code resp < 600) →
  broken (body resp) = None →
  outcome (script net argv0 argv (start fs)) = Done tt
  ∧ (∀ n, store_of (script net argv0 argv (start fs)) !! n =
          if String.eqb n (name asset)
          then Some (File (concat (chunks (body resp))))
          else if stale (Some (name asset)) fs n then None
          else fs !! n)
  ∧ transfers (trace_of (script net argv0 argv (start fs)))
    = [EvGet (browser_download_url asset) true]
  ∧ handoffs (trace_of (script net argv0 argv (start fs)))
    = [EvSystem (String.concat " " (name asset :: argv))].
Proof.
  intros _ Hguard Hres Ha Habs Hcdn Hs Hbr.
  assert (store w1 = fs ∧ handoffs (trace w1) = [] ∧ transfers (trace w1) = [])
    as (Hst & Hh & Ht).
  { destruct (get_latest_release_shape net (args_prelease argv)
                (log (EvConsole msg_panel) (start fs)))
      as (o & evs & Hrun & Hev).
    rewrite Hres in Hrun. injection Hrun as _ ->.
    apply report_events_quiet in Hev as (_ & Hh & _ & Ht).
    unfold logs, log. cbn [store trace start app].
    change (handoffs (?a :: ?b :: evs)) with (handoffs evs).
    change (transfers (?a :: ?b :: evs)) with (transfers evs).
    by rewrite Hh, Ht. }
  assert (script net argv0 argv (start fs)
          = main net (args_prelease argv) argv (PyJson (JObject r)) w1) as ->.
  { unfold script, Updater. rewrite Hguard. cbn [negb].
    by rewrite bind_run, bind_run, console_print_run, Hres. }
  rewrite <- Hst in Habs.
  destruct (main_successful_update net (args_prelease argv) argv r asset rest
              resp w1 Ha Habs Hcdn Hs Hbr) as (Hout & Hstore & Hhand).
  pose proof (main_transfers net (args_prelease argv) argv r asset rest w1 Ha)
    as Htr.
  assert (exists_ (store w1) (name asset) = false) as Hex.
  { unfold exists_. rewrite Habs. apply bool_decide_eq_false_2.
    by intros [? ?]. }
  rewrite Hex, Ht in Htr. rewrite Hh in Hhand.
  split; [done|]. split; [|by split].
  intros n. rewrite Hstore, Hst. unfold installed.
  destruct (String.eqb_spec n (name asset)) as [->|Hne].
  - apply lookup_insert_eq.
  - rewrite lookup_insert_ne by done. apply lookup_pruned.
Qed.

(** Release 1.0 over a store that holds 0.9. *)
Lemma successful_update_witness :
  outcome (script net_serves "main.py" ["--fast"] (start fs_old)) = Done tt
  ∧ (∀ n, store_of (script net_serves "main.py" ["--fast"] (start fs_old))
            !! n =
          if String.eqb n (name asset_1)
          then Some (File (concat (chunks (body
                 {| status_code := 200;
                    body := {| chunks := [[x01; x02]; [x03; x04]];
                               broken := None |} |}))))
          else if stale (Some (name asset_1)) fs_old n then None
          else fs_old !! n)
  ∧ transfers (trace_of (script net_serves "main.py" ["--fast"]
                           (start fs_old)))
    = [EvGet (browser_download_url asset_1) true]
  ∧ handoffs (trace_of (script net_serves "main.py" ["--fast"]
                          (start fs_old)))
    = [EvSystem (String.concat " " (name asset_1 :: ["--fast"]))].
Proof.
  apply (successful_update net_serves "main.py" ["--fast"] fs_old
           rel_1 asset_1 [] _
           {| store := fs_old;
              trace := [EvConsole msg_panel; EvGet url_latest false] |}).
  - reflexivity.
  - vm_compute. reflexivity.
  - reflexivity.
  - reflexivity.
  - vm_compute. reflexivity.
  - reflexivity.
  - cbn. lia.
  - reflexivity.
Defined.

(** ** The command line *)

Lemma concat_cons_cons (sep a b : string) (l : list string) :
  String.concat sep (a :: b :: l)
    = String.append a (String.append sep (String.concat sep (b :: l))).
Proof. reflexivity. Qed.

Lemma append_assoc (a b c : string) :
  String.append (String.append a b) c = String.append a (String.append b c).
Proof.
  induction a as [|x a IH]; [done|].
  change (String x (String.append (String.append a b) c)
          = String x (String.append a (String.append b c))).
  by rewrite IH.
Qed.

(** X17. Arguments are joined, not quoted: the command line is the
    target's name and the arguments with single spaces in between, so an
    argument that contains a space reaches the shell exactly as two
    arguments would; with no argument the command is the target's name
    alone. *)
Theorem command_line_joins_with_spaces
    (target a b : string) (before after : list string) :
  command_line target
    (before ++ String.append a (String.append " " b) :: after)
    = command_line target (before ++ a :: b :: after)
  ∧ command_line target [] = target.
Proof.
  split; [|done]. unfold command_line.
  assert (∀ x l, String.concat " " (x :: l ++ String.append a (String.append " " b)
                                       :: after)
                 = String.concat " " (x :: l ++ a :: b :: after)) as H;
    [|apply H].
  intros x l. revert x. induction l as [|y l IH]; intros x.
  - cbn [app]. destruct after as [|c after].
    + by rewrite !concat_cons_cons.
    + rewrite !concat_cons_cons. by rewrite !append_assoc.
  - cbn [app]. rewrite !(concat_cons_cons _ x). by rewrite IH.
Qed.

(** ** The order of [main]: prune, then check, then the rest *)

(** The whole effect of [delete_old_releases]. *)
Lemma delete_old_releases_exact (exclude_file : option string) (w : World) :
  delete_old_releases exclude_file w
    = (Done tt,
       {| store := pruned exclude_file (store w);
          trace := trace w ++ EvGlob "CollapseLoader*"
                     :: flat_map (prune_step exclude_file (store w))
                          (matching release_prefix (store w)) |}).
Proof.
  pose proof (delete_old_releases_trace exclude_file w) as Ht.
  destruct (delete_old_releases_run exclude_file w) as (evs & Hrun & _).
  rewrite Hrun in *. unfold trace_of in Ht. cbn [snd trace] in Ht.
  by rewrite Ht.
Qed.

(** [download_latest_release] removes nothing. *)
Lemma download_removed net prelease r asset rest w :
  assets r = asset :: rest →
  removed (trace_of (download_latest_release net prelease
                       (PyJson (JObject r)) w)) = removed (trace w).
Proof.
  intros Ha. unfold trace_of.
  destruct (cdn net (browser_download_url asset)) as [e|resp] eqn:Hcdn.
  { destruct (download_refused net prelease r asset rest w Ha) as [e' ->];
      [left; by exists e |].
    cbn. rewrite removed_app. cbn. by rewrite app_nil_r. }
  destruct (decide (400 ≤ status_code resp < 600)) as [Hs|Hs].
  { destruct (download_refused net prelease r asset rest w Ha) as [e' ->];
      [right; by exists resp |].
    cbn. rewrite removed_app. cbn. by rewrite app_nil_r. }
  assert (store w !! name asset = Some Dir
          ∨ store w !! name asset ≠ Some Dir) as [Hdir|Hdir].
  { destruct (store w !! name asset) as [[|]|]; auto. }
  - rewrite (download_onto_directory _ _ _ _ _ _ _ Ha Hcdn Hs Hdir).
    cbn. rewrite removed_app. cbn. by rewrite app_nil_r.
  - rewrite (download_streams _ _ _ _ _ _ _ Ha Hcdn Hs Hdir).
    cbn [snd trace]. rewrite !removed_app.
    assert (removed (chunk_events (name asset) (chunks (body resp))) = [])
      as ->.
    { induction (chunks (body resp)) as [|c cs IH]; [done|]. apply IH. }
    destruct (broken (body resp)); cbn; by rewrite app_nil_r.
Qed.

(** [main] on a candidate is the pruning, on the world it starts in,
    followed by the rest of [main], on the world the pruning leaves. *)
Lemma main_is_prune_then_reconcile net prelease argv r asset rest w :
  assets r = asset :: rest →
  main net prelease argv (PyJson (JObject r)) w
    = reconcile net prelease argv (PyJson (JObject r)) (name asset)
        (snd (delete_old_releases (Some (name asset)) w)).
Proof.
  intros Ha. unfold main. cbn [truthy].
  rewrite bind_run, (first_asset_run _ _ _ _ Ha).
  rewrite bind_run, delete_old_releases_exact. reflexivity.
Qed.

(** What the rest of [main] adds to the trace: the presence check, then
    events among which there is no removal. *)
Lemma reconcile_trace net prelease argv r asset rest w :
  assets r = asset :: rest →
  ∃ tail,
    trace_of (reconcile net prelease argv (PyJson (JObject r)) (name asset) w)
      = trace w ++ EvExists (name asset) :: tail
    ∧ removed tail = [].
Proof.
  intros Ha. unfold reconcile, trace_of.
  rewrite bind_run, os_path_exists_run.
  destruct (exists_ (store w) (name asset)); cbn [negb].
  - rewrite bind_run, console_print_run, bind_run, console_print_run.
    unfold os_system. rewrite emit_run. unfold log. cbn [snd store trace].
    exists [EvConsole msg_already; EvConsole msg_starting;
            EvSystem (String.concat " " (name asset :: argv))].
    split; [by rewrite <- !app_assoc | done].
  - rewrite bind_run.
    pose proof (download_removed net prelease r asset rest
                  (log (EvExists (name asset)) w) Ha) as Hrem.
    destruct (download_trace net prelease r asset rest
                (log (EvExists (name asset)) w) Ha) as (devs & Hd & _).
    unfold trace_of in *. rewrite Hd in Hrem.
    unfold log in Hrem, Hd. cbn [store trace] in Hrem, Hd.
    rewrite !removed_app in Hrem. cbn in Hrem.
    rewrite app_nil_r in Hrem.
    assert (removed devs = []) as Hdevs.
    { apply (app_inv_head (removed (trace w))). by rewrite app_nil_r. }
    destruct (download_latest_release _ _ _ _) as [[[]|e] w2];
      cbn [snd] in *.
    + rewrite bind_run, console_print_run. unfold os_system.
      rewrite emit_run. unfold log. cbn [snd store trace]. rewrite Hd.
      exists (devs ++ [EvConsole msg_starting;
                       EvSystem (String.concat " " (name asset :: argv))]).
      split; [by rewrite <- !app_assoc|].
      rewrite removed_app, Hdevs. done.
    + exists devs. split; [by rewrite Hd, <- app_assoc | done].
Qed.

(** C7. In every run of [main] on a candidate (its first asset names the
    target), [delete_old_releases(target)] is run first, on the world the
    run starts in, and to its end: it returns, having listed the
    directory and removed every stale release; [main] then goes on, from
    the world that call leaves, with the presence check and what follows
    it, in which nothing more is removed.  This is so whether or not the
    target is present, so every stale release is gone from the store the
    run leaves, download or not. *)
Theorem prune_precedes_presence_check
    (net : Network) (prelease : bool) (argv : list string)
    (r : Release) (asset : Asset) (rest : list Asset) (w : World) :
  assets r = asset :: rest →
  delete_old_releases (Some (name asset)) w
    = (Done tt,
       {| store := pruned (Some (name asset)) (store w);
          trace := trace w ++ EvGlob "CollapseLoader*"
                     :: flat_map (prune_step (Some (name asset)) (store w))
                          (matching release_prefix (store w)) |})
  ∧ main net prelease argv (PyJson (JObject r)) w
    = reconcile net prelease argv (PyJson (JObject r)) (name asset)
        (snd (delete_old_releases (Some (name asset)) w))
  ∧ (∃ tail,
       trace_of (main net prelease argv (PyJson (JObject r)) w)
         = trace_of (delete_old_releases (Some (name asset)) w)
             ++ EvExists (name asset) :: tail
       ∧ removed tail = [])
  ∧ removed (trace_of (delete_old_releases (Some (name asset)) w))
    = removed (trace w)
        ++ List.filter (stale (Some (name asset)) (store w))
             (matching release_prefix (store w))
  ∧ transfers (trace_of (delete_old_releases (Some (name asset)) w))
    = transfers (trace w)
  ∧ (∀ n, stale (Some (name asset)) (store w) n = true →
          store_of (delete_old_releases (Some (name asset)) w) !! n = None
          ∧ store_of (main net prelease argv (PyJson (JObject r)) w) !! n
            = None).
Proof.
  intros Ha. split; [apply delete_old_releases_exact|].
  split; [by apply (main_is_prune_then_reconcile _ _ _ _ _ rest)|].
  split; [|split; [|split]].
  - rewrite (main_is_prune_then_reconcile _ _ _ _ _ rest) by done.
    by apply (reconcile_trace _ _ _ _ _ rest).
  - rewrite delete_old_releases_exact. unfold trace_of. cbn [snd trace].
    rewrite removed_app.
    change (removed (EvGlob "CollapseLoader*" :: ?t)) with (removed t).
    by rewrite removed_prune_steps, filter_stale_matching.
  - destruct (delete_old_releases_run (Some (name asset)) w)
      as (evs & -> & Hev).
    unfold trace_of. cbn [snd trace]. rewrite transfers_app.
    change (transfers (EvGlob "CollapseLoader*" :: evs)) with (transfers evs).
    by rewrite (transfers_prune_events evs), app_nil_r.
  - intros n Hn. split.
    + rewrite delete_old_releases_exact. unfold store_of. cbn [snd store].
      by rewrite lookup_pruned, Hn.
    + rewrite (main_store_other _ _ _ _ _ _ _ _ Ha).
      * by rewrite lookup_pruned, Hn.
      * intros ->. unfold stale in Hn.
        rewrite (bool_decide_eq_false_2
                   (Some (name asset) ≠ Some (name asset))) in Hn;
          [|by intros []].
        by rewrite andb_false_r in Hn.
Qed.

(** The run on a store that already holds the target, next to a stale
    release. *)
Lemma prune_precedes_presence_check_witness :
  delete_old_releases (Some (name asset_1)) (start fs_current)
    = (Done tt,
       {| store := pruned (Some (name asset_1)) (store (start fs_current));
          trace := trace (start fs_current) ++ EvGlob "CollapseLoader*"
                     :: flat_map (prune_step (Some (name asset_1))
                                    (store (start fs_current)))
                          (matching release_prefix
                             (store (start fs_current))) |})
  ∧ main net_serves false [] (PyJson (JObject rel_1)) (start fs_current)
    = reconcile net_serves false [] (PyJson (JObject rel_1)) (name asset_1)
        (snd (delete_old_releases (Some (name asset_1)) (start fs_current)))
  ∧ (∃ tail,
       trace_of (main net_serves false [] (PyJson (JObject rel_1))
                   (start fs_current))
         = trace_of (delete_old_releases (Some (name asset_1))
                       (start fs_current))
             ++ EvExists (name asset_1) :: tail
       ∧ removed tail = [])
  ∧ removed (trace_of (delete_old_releases (Some (name asset_1))
                         (start fs_current)))
    = removed (trace (start fs_current))
        ++ List.filter (stale (Some (name asset_1)) (store (start fs_current)))
             (matching release_prefix (store (start fs_current)))
  ∧ transfers (trace_of (delete_old_releases (Some (name asset_1))
                           (start fs_current)))
    = transfers (trace (start fs_current))
  ∧ (∀ n, stale (Some (name asset_1)) (store (start fs_current)) n = true →
          store_of (delete_old_releases (Some (name asset_1))
                      (start fs_current)) !! n = None
          ∧ store_of (main net_serves false [] (PyJson (JObject rel_1))
                        (start fs_current)) !! n = None).
Proof.
  apply (prune_precedes_presence_check net_serves false [] rel_1 asset_1 []
           (start fs_current)).
  reflexivity.
Defined.

(** The same run, event by event: the stale release is tested and
    removed before the target is looked for. *)
Example prune_precedes_presence_check_run :
  trace_of (main net_serves false [] (PyJson (JObject rel_1))
              (start fs_current))
    = [EvGlob "CollapseLoader*";
       EvIsFile "CollapseLoader_0.9.exe"; EvRemove "CollapseLoader_0.9.exe";
       EvConsole (msg_deleted "CollapseLoader_0.9.exe");
       EvExists "CollapseLoader_1.0.exe";
       EvConsole msg_already; EvConsole msg_starting;
       EvSystem "CollapseLoader_1.0.exe"].
Proof. vm_compute. reflexivity. Qed.

(** The command lines of the runs above are ones argparse accepts; [-h],
    [--help] and an option with a value are not. *)
Example accepted_command_lines :
  parse_known_args_returns ["--prelease"; "--fast"] = true
  ∧ parse_known_args_returns [] = true
  ∧ parse_known_args_returns ["--pre"; "file name"; "-x"] = true
  ∧ parse_known_args_returns ["--help"] = false
  ∧ parse_known_args_returns ["-h"] = false
  ∧ parse_known_args_returns ["--fast"; "--prelease=1"] = false.
Proof. vm_compute. done. Qed.
